(** * Jettison OSD rendering engine: shallow embedding and verified properties

    The development follows the C sources of the on-screen-display plugin:
    the primitive rasteriser ([rendering/primitives.c]), the celestial
    coordinate transform ([utils/celestial_position.c]), the navball widget
    ([widgets/navball.c]) and the plugin entry points ([osd_plugin.c]).

    C [int] values are integers in [Z] whose arithmetic wraps at 32 bits;
    C [float] and [double] values are IEEE-754 binary32 and binary64 numbers
    ([spec_float] with the operations of the Standard Library's [SpecFloat]);
    the transcendental functions of the C math library are an interface
    ([Libm]); stateful code is written in state-passing style and code that
    may loop forever or leave the domain of a C operation returns [option]. *)

From Stdlib Require Import ZArith Bool Lia.
From Stdlib Require Import Floats.SpecFloat.
From stdpp Require Import base option list.

Open Scope Z_scope.

(* ===================================================================== *)
(** ** Machine integers *)
(* ===================================================================== *)

Module Int32.

Definition min_signed : Z := - 2 ^ 31.
Definition max_signed : Z := 2 ^ 31 - 1.

Definition in_range (n : Z) : Prop := min_signed <= n <= max_signed.

(** Two's complement reduction of an integer to the range of [int]. *)
Definition wrap (n : Z) : Z := (n + 2 ^ 31) mod 2 ^ 32 - 2 ^ 31.

Definition add (a b : Z) : Z := wrap (a + b).
Definition sub (a b : Z) : Z := wrap (a - b).
Definition mul (a b : Z) : Z := wrap (a * b).
Definition neg (a : Z) : Z := wrap (- a).

(** Reduction of an integer to [uint32_t] and to [uint8_t]. *)
Definition u32 (n : Z) : Z := n mod 2 ^ 32.
Definition u8 (n : Z) : Z := n mod 2 ^ 8.

End Int32.

(* ===================================================================== *)
(** ** IEEE-754 arithmetic *)
(* ===================================================================== *)

(** Conversions shared by both formats: a format is its precision [prec]
    and its maximal exponent [emax]. *)
Section Format.
Variables prec emax : Z.

(** Conversion of an integer, rounding to nearest even. *)
Definition SFof_Z (n : Z) : spec_float := binary_normalize prec emax n 0 false.

(** The number [m * 2^e] of the other format, rounded to this one. *)
Definition SFof_float (x : spec_float) : spec_float :=
  match x with
  | S754_finite s m e => binary_normalize prec emax (cond_Zopp s (Zpos m)) e s
  | _ => x
  end.

(** The quotient [n / d] of two positive integers, correctly rounded:
    the value of a decimal literal of the source. *)
Definition SFof_ratio (n d : positive) : spec_float :=
  let '(mz, ez, lz) := SFdiv_core_binary prec emax (Zpos n) 0 (Zpos d) 0 in
  binary_round_aux prec emax false mz ez lz.
End Format.

(** The integer part of a finite number, rounded toward zero. *)
Definition SFtrunc (x : spec_float) : option Z :=
  match x with
  | S754_zero _ => Some 0
  | S754_finite s m e =>
      Some (cond_Zopp s (if 0 <=? e then Zpos m * 2 ^ e else Zpos m / 2 ^ (- e)))
  | _ => None
  end.

(** The C cast [(int)x]: truncation toward zero; the behaviour is undefined
    ([None]) when the integer part does not fit in an [int], and for
    infinities and NaN. *)
Definition SFto_int (x : spec_float) : option Z :=
  match SFtrunc x with
  | Some n =>
      if (Int32.min_signed <=? n) && (n <=? Int32.max_signed) then Some n
      else None
  | None => None
  end.

(** The C cast [(uint8_t)x], defined when the integer part is in [0,255]. *)
Definition SFto_u8 (x : spec_float) : option Z :=
  match SFtrunc x with
  | Some n => if (0 <=? n) && (n <=? 255) then Some n else None
  | None => None
  end.

Definition SFis_finite (x : spec_float) : bool :=
  match x with
  | S754_zero _ | S754_finite _ _ _ => true
  | _ => false
  end.

Abbreviation float := spec_float (only parsing).
Abbreviation double := spec_float (only parsing).

(** Binary32, the C type [float]. Comparisons with a NaN are false. *)
Module F32.
Definition prec : Z := 24.
Definition emax : Z := 128.
Definition add : float -> float -> float := SFadd prec emax.
Definition sub : float -> float -> float := SFsub prec emax.
Definition mul : float -> float -> float := SFmul prec emax.
Definition div : float -> float -> float := SFdiv prec emax.
Definition sqrt : float -> float := SFsqrt prec emax.
Definition opp : float -> float := SFopp.
Definition abs : float -> float := SFabs.
Definition ltb (x y : float) : bool := SFltb x y.
Definition leb (x y : float) : bool := SFleb x y.
Definition gtb (x y : float) : bool := SFltb y x.
Definition geb (x y : float) : bool := SFleb y x.
Definition of_Z : Z -> float := SFof_Z prec emax.
Definition of_double : double -> float := SFof_float prec emax.
Definition lit : positive -> positive -> float := SFof_ratio prec emax.
Definition to_int : float -> option Z := SFto_int.
Definition to_u8 : float -> option Z := SFto_u8.
Definition zero : float := S754_zero false.
End F32.

(** Binary64, the C type [double]. *)
Module F64.
Definition prec : Z := 53.
Definition emax : Z := 1024.
Definition add : double -> double -> double := SFadd prec emax.
Definition sub : double -> double -> double := SFsub prec emax.
Definition mul : double -> double -> double := SFmul prec emax.
Definition div : double -> double -> double := SFdiv prec emax.
Definition opp : double -> double := SFopp.
Definition ltb (x y : double) : bool := SFltb x y.
Definition leb (x y : double) : bool := SFleb x y.
Definition gtb (x y : double) : bool := SFltb y x.
Definition geb (x y : double) : bool := SFleb y x.
Definition of_Z : Z -> double := SFof_Z prec emax.
Definition of_float : float -> double := SFof_float prec emax.
Definition lit : positive -> positive -> double := SFof_ratio prec emax.
Definition to_int : double -> option Z := SFto_int.
Definition zero : double := S754_zero false.
End F64.

(** [floorf] and [fmodf] are exact operations; they are computed on the
    binary representation. *)
Definition floorf (x : float) : float :=
  match x with
  | S754_finite s m e =>
      if 0 <=? e then x
      else
        let q := Zpos m / 2 ^ (- e) in
        let r := Zpos m mod 2 ^ (- e) in
        if s then F32.opp (F32.of_Z (if r =? 0 then q else q + 1))
        else F32.of_Z q
  | _ => x
  end.

Definition fmodf (x y : float) : float :=
  match x, y with
  | S754_nan, _ | _, S754_nan => S754_nan
  | S754_infinity _, _ => S754_nan
  | _, S754_zero _ => S754_nan
  | S754_zero _, _ => x
  | S754_finite _ _ _, S754_infinity _ => x
  | S754_finite sx mx ex, S754_finite _ my ey =>
      let e0 := Z.min ex ey in
      let X := Zpos mx * 2 ^ (ex - e0) in
      let Y := Zpos my * 2 ^ (ey - e0) in
      binary_normalize F32.prec F32.emax (cond_Zopp sx (X mod Y)) e0 sx
  end.

(** The transcendental functions come from the platform's C library, which
    is not part of the sources: the code is parameterised by them. *)
Class Libm := {
  sinf : float -> float;
  cosf : float -> float;
  atan2f : float -> float -> float;
  asinf : float -> float;
  sin : double -> double;
  cos : double -> double
}.

(** [M_PI], the literal 3.14159265358979323846 of type [double]. *)
Definition M_PI : double :=
  F64.lit 314159265358979323846 100000000000000000000.


(* ===================================================================== *)
(** ** Framebuffer *)
(* ===================================================================== *)

(** Colours are packed 32-bit values [0xAABBGGRR]. *)
Module Color.
Definition red (c : Z) : Z := Z.land c 255.
Definition green (c : Z) : Z := Z.land (Z.shiftr c 8) 255.
Definition blue (c : Z) : Z := Z.land (Z.shiftr c 16) 255.
Definition alpha (c : Z) : Z := Z.land (Z.shiftr c 24) 255.

(** [(a << 24) | (b << 16) | (g << 8) | r] on [uint32_t]. *)
Definition pack (a b g r : Z) : Z :=
  Int32.u32
    (Z.lor (Z.lor (Z.lor (Z.shiftl a 24) (Z.shiftl b 16)) (Z.shiftl g 8)) r).
End Color.

(** A view of the pixel array: [width * height] packed colours, row-major,
    origin top-left. *)
Record framebuffer_t := {
  fb_pixels : list Z;
  fb_width : Z;
  fb_height : Z
}.

Definition framebuffer_init (pixels : list Z) (width height : Z) : framebuffer_t :=
  {| fb_pixels := pixels; fb_width := width; fb_height := height |}.

Definition fb_in_bounds (fb : framebuffer_t) (x y : Z) : bool :=
  (0 <=? x) && (x <? fb_width fb) && (0 <=? y) && (y <? fb_height fb).

Definition fb_index (fb : framebuffer_t) (x y : Z) : nat :=
  Z.to_nat (y * fb_width fb + x).

(** The colour stored at [(x, y)], if the position is inside the view. *)
Definition fb_get (fb : framebuffer_t) (x y : Z) : option Z :=
  if fb_in_bounds fb x y then fb_pixels fb !! fb_index fb x y else None.

(** Modelled from the spec: [core/framebuffer.h] and [rendering/blending.h]
    are not among the sources. Section 4.1 of the specification gives the
    contract of the blend primitive: it composites [color] over the existing
    pixel with [out = src * srcA + dst * (1 - srcA)] per channel, alpha
    similarly (alpha is an integer in [0,255]), and is a no-op if [(x, y)]
    lies outside [[0,width) x [0,height)]. *)
Definition blend_channel (src dst a : Z) : Z :=
  (src * a + dst * (255 - a)) / 255.

Definition blend_over (src dst : Z) : Z :=
  let a := Color.alpha src in
  Color.pack (blend_channel (Color.alpha src) (Color.alpha dst) a)
             (blend_channel (Color.blue src) (Color.blue dst) a)
             (blend_channel (Color.green src) (Color.green dst) a)
             (blend_channel (Color.red src) (Color.red dst) a).

Definition framebuffer_blend_pixel
    (fb : framebuffer_t) (x y : Z) (color : Z) : framebuffer_t :=
  if fb_in_bounds fb x y then
    match fb_pixels fb !! fb_index fb x y with
    | Some dst =>
        {| fb_pixels := <[fb_index fb x y := blend_over color dst]> (fb_pixels fb);
           fb_width := fb_width fb;
           fb_height := fb_height fb |}
    | None => fb
    end
  else fb.

(* ===================================================================== *)
(** ** Loops *)
(* ===================================================================== *)

(** Runs [body] for the successive values of the loop counter. *)
Fixpoint iterate {S : Type} (body : Z -> S -> option S) (idxs : list Z) (s : S)
    : option S :=
  match idxs with
  | [] => Some s
  | i :: idxs' => match body i s with
                  | Some s' => iterate body idxs' s'
                  | None => None
                  end
  end.

(** [for (int i = lo; i <= hi; i++) body]. With [hi = INT_MAX] the test
    never fails and the loop does not terminate. *)
Definition for_le {S : Type} (lo hi : Z) (body : Z -> S -> option S) (s : S)
    : option S :=
  if hi =? Int32.max_signed then None
  else iterate body (seqZ lo (hi - lo + 1)) s.

(** [for (int i = lo; i < hi; i++) body]. *)
Definition for_lt {S : Type} (lo hi : Z) (body : Z -> S -> option S) (s : S)
    : option S :=
  iterate body (seqZ lo (hi - lo)) s.

(* ===================================================================== *)
(** ** Primitive rasteriser ([rendering/primitives.c]) *)
(* ===================================================================== *)

Definition draw_pixel (fb : framebuffer_t) (x y : Z) (color : Z) : framebuffer_t :=
  framebuffer_blend_pixel fb x y color.

Definition draw_filled_circle
    (fb : framebuffer_t) (cx cy : Z) (radius : float) (color : Z)
    : option framebuffer_t :=
  r ← F32.to_int radius;
  for_le (Int32.neg r) r (fun y fb =>
    for_le (Int32.neg r) r (fun x fb =>
      if Int32.add (Int32.mul x x) (Int32.mul y y) <=? Int32.mul r r
      then Some (draw_pixel fb (Int32.add cx x) (Int32.add cy y) color)
      else Some fb) fb) fb.

Definition draw_circle_outline
    (fb : framebuffer_t) (cx cy : Z) (radius : float) (color : Z)
    (thickness : float) : option framebuffer_t :=
  let half := F32.div thickness (F32.lit 2 1) in
  r_outer ← F32.to_int (F32.add radius half);
  r_inner ← F32.to_int (F32.sub radius half);
  let r_inner := if r_inner <? 0 then 0 else r_inner in
  for_le (Int32.neg r_outer) r_outer (fun y fb =>
    for_le (Int32.neg r_outer) r_outer (fun x fb =>
      let dist_sq := Int32.add (Int32.mul x x) (Int32.mul y y) in
      if (Int32.mul r_inner r_inner <=? dist_sq)
         && (dist_sq <=? Int32.mul r_outer r_outer)
      then Some (draw_pixel fb (Int32.add cx x) (Int32.add cy y) color)
      else Some fb) fb) fb.

Definition draw_rect_filled (fb : framebuffer_t) (x y w h : Z) (color : Z)
    : option framebuffer_t :=
  for_lt y (Int32.add y h) (fun py fb =>
    for_lt x (Int32.add x w) (fun px fb =>
      Some (draw_pixel fb px py color)) fb) fb.

(** [degrees * (float)(M_PI / 180.0)] *)
Definition deg_to_radf (degrees : float) : float :=
  F32.mul degrees (F32.of_double (F64.div M_PI (F64.lit 180 1))).

(** Compass angles (0 = up, clockwise) to mathematical angles (0 = right,
    counter-clockwise): [math_angle = 90 - compass_angle]. *)
Definition compass_to_math_rad (compass_deg : float) : float :=
  deg_to_radf (F32.sub (F32.lit 90 1) compass_deg).

(** [2.0f * (float)M_PI] *)
Definition two_pi_f : float := F32.mul (F32.lit 2 1) (F32.of_double M_PI).

(** [while (a < 0) a += 2.0f * (float)M_PI;] *)
Fixpoint wrap_up (fuel : nat) (a : float) : option float :=
  match fuel with
  | O => None
  | S fuel' =>
      if F32.ltb a F32.zero then wrap_up fuel' (F32.add a two_pi_f) else Some a
  end.

(** [while (a >= 2.0f * (float)M_PI) a -= 2.0f * (float)M_PI;] *)
Fixpoint wrap_down (fuel : nat) (a : float) : option float :=
  match fuel with
  | O => None
  | S fuel' =>
      if F32.geb a two_pi_f then wrap_down fuel' (F32.sub a two_pi_f) else Some a
  end.

Section Wedge.
Context {libm : Libm}.

(** The test applied to the pixel at offset [(x, y)] from the centre. *)
Definition wedge_covers (radius start_rad end_rad : float) (x y : Z) : bool :=
  let wraps := F32.ltb end_rad start_rad in
  let dist_sq := F32.of_Z (Int32.add (Int32.mul x x) (Int32.mul y y)) in
  if F32.gtb dist_sq (F32.mul radius radius) then false
  else
    let pixel_angle := atan2f (F32.of_Z (Int32.neg y)) (F32.of_Z x) in
    let pixel_angle :=
      if F32.ltb pixel_angle F32.zero then F32.add pixel_angle two_pi_f
      else pixel_angle in
    if wraps
    then F32.geb pixel_angle start_rad || F32.leb pixel_angle end_rad
    else F32.geb pixel_angle end_rad && F32.leb pixel_angle start_rad.

(** The angles in radians after the swap, the conversion and the four
    normalisation loops, which run with the same bound [fuel] on their
    number of iterations; [None] when a loop does not finish within it. *)
Definition wedge_angles (fuel : nat) (start_angle_deg end_angle_deg : float)
    : option (float * float) :=
  let '(start_angle_deg, end_angle_deg) :=
    if F32.gtb start_angle_deg end_angle_deg
    then (end_angle_deg, start_angle_deg)
    else (start_angle_deg, end_angle_deg) in
  let start_rad := compass_to_math_rad start_angle_deg in
  let end_rad := compass_to_math_rad end_angle_deg in
  start_rad ← wrap_up fuel start_rad;
  end_rad ← wrap_up fuel end_rad;
  start_rad ← wrap_down fuel start_rad;
  end_rad ← wrap_down fuel end_rad;
  Some (start_rad, end_rad).

Definition draw_wedge_filled (fuel : nat)
    (fb : framebuffer_t) (cx cy : Z) (radius : float)
    (start_angle_deg end_angle_deg : float) (color : Z)
    : option framebuffer_t :=
  '(start_rad, end_rad) ← wedge_angles fuel start_angle_deg end_angle_deg;
  r ← F32.to_int radius;
  for_le (Int32.neg r) r (fun y fb =>
    for_le (Int32.neg r) r (fun x fb =>
      if wedge_covers radius start_rad end_rad x y
      then Some (draw_pixel fb (Int32.add cx x) (Int32.add cy y) color)
      else Some fb) fb) fb.
End Wedge.

(* ===================================================================== *)
(** ** The cglm library *)
(* ===================================================================== *)

(** cglm is a third-party header library and not part of the sources; the
    code is parameterised by the three functions it calls. A [vec3] is
    [float[3]], a [versor] is [float[4]], and the matrices are arrays of
    columns ([dest[col][row]]). *)
Definition vec3 : Type := float * float * float.
Definition versor : Type := float * float * float * float.
Definition mat3 : Type := list (list float).
Definition mat4 : Type := list (list float).

Class Cglm := {
  glm_euler_yxz_quat : vec3 -> versor;
  glm_quat_mat3 : versor -> mat3;
  glm_quat_mat4 : versor -> mat4
}.

(** [mat[i][j]] *)
Definition mat_get (mat : list (list float)) (i j : Z) : float :=
  match mat !! Z.to_nat i with
  | Some col => default F32.zero (col !! Z.to_nat j)
  | None => F32.zero
  end.

Definition mat3_identity : mat3 :=
  let o := F32.of_Z 1 in
  let z := F32.zero in
  [[o; z; z]; [z; o; z]; [z; z; o]].

(* ===================================================================== *)
(** ** Celestial coordinate transform ([utils/celestial_position.c]) *)
(* ===================================================================== *)

Module Celestial.

(** [#define DEG_TO_RAD(deg) ((deg)*M_PI / 180.0)] *)
Definition DEG_TO_RAD (deg : double) : double :=
  F64.div (F64.mul deg M_PI) (F64.lit 180 1).

Record vec3_t := { x : double; y : double; z : double }.

(** Row-major: [m[row*3 + col]]. *)
Record mat3_t := { m : list double }.

Definition m_at (mat : mat3_t) (i : nat) : double :=
  default F64.zero (m mat !! i).

Section WithLibraries.
Context {libm : Libm} {cglm : Cglm}.

Definition horizontal_to_vector (azimuth altitude : double) : vec3_t :=
  let az_rad := DEG_TO_RAD azimuth in
  let alt_rad := DEG_TO_RAD altitude in
  let cos_alt := cos alt_rad in
  {| x := F64.mul cos_alt (sin az_rad);
     y := sin alt_rad;
     z := F64.mul cos_alt (cos az_rad) |}.

Definition create_rotation_matrix (azimuth elevation bank : double) : mat3_t :=
  let pitch_rad := DEG_TO_RAD elevation in
  let roll_rad := DEG_TO_RAD azimuth in
  let yaw_rad := DEG_TO_RAD bank in
  let angles : vec3 :=
    (F32.of_double pitch_rad, F32.of_double roll_rad, F32.of_double yaw_rad) in
  let q := glm_euler_yxz_quat angles in
  let cglm_mat3 := glm_quat_mat3 q in
  {| m := (fun i => F64.of_float (mat_get cglm_mat3 (i / 3) (i mod 3)))
            <$> seqZ 0 9 |}.

Definition mat3_mul_vec3 (mat : mat3_t) (v : vec3_t) : vec3_t :=
  let mul := F64.mul in
  let add := F64.add in
  {| x := add (add (mul (m_at mat 0) (x v)) (mul (m_at mat 1) (y v)))
              (mul (m_at mat 2) (z v));
     y := add (add (mul (m_at mat 3) (x v)) (mul (m_at mat 4) (y v)))
              (mul (m_at mat 5) (z v));
     z := add (add (mul (m_at mat 6) (x v)) (mul (m_at mat 7) (y v)))
              (mul (m_at mat 8) (z v)) |}.

(** Returns [is_front] and the values stored through [screen_x] and
    [screen_y]; [None] when a cast to [int] is undefined. *)
Definition celestial_to_navball_coords
    (azimuth altitude : double)
    (platform_azimuth platform_elevation platform_bank : double)
    (navball_center_x navball_center_y navball_radius : Z)
    : option (bool * Z * Z) :=
  let celestial_vec := horizontal_to_vector azimuth altitude in
  let rotation :=
    create_rotation_matrix platform_azimuth platform_elevation platform_bank in
  let rotated := mat3_mul_vec3 rotation celestial_vec in
  let is_front := F64.gtb (z rotated) F64.zero in
  dx ← F64.to_int (F64.mul (x rotated) (F64.of_Z navball_radius));
  dy ← F64.to_int (F64.mul (y rotated) (F64.of_Z navball_radius));
  Some (is_front, Int32.add navball_center_x dx,
        Int32.sub navball_center_y dy).
End WithLibraries.

End Celestial.

(* ===================================================================== *)
(** ** External services used by the widgets *)
(* ===================================================================== *)

(** The SVG rasteriser ([resources/svg.h]), outside the rendering core. *)
Class Svg := {
  svg_resource_t : Type;
  (** [svg->image != NULL] *)
  svg_image : svg_resource_t -> bool;
  svg_render :
    framebuffer_t -> svg_resource_t -> Z -> Z -> Z -> Z -> framebuffer_t;
  svg_render_with_alpha :
    framebuffer_t -> svg_resource_t -> Z -> Z -> Z -> Z -> float -> framebuffer_t
}.

Record observer_location_t := {
  latitude : double;
  longitude : double;
  altitude : double
}.

Record celestial_position_t := {
  cp_azimuth : double;
  cp_altitude : double;
  cp_valid : bool
}.

Record celestial_positions_t := {
  sun : celestial_position_t;
  moon : celestial_position_t
}.

(** The Astronomy Engine library, which computes the positions of the sun
    and the moon from a timestamp and an observer location. *)
Class Astronomy := {
  celestial_calculate : Z -> observer_location_t -> celestial_positions_t
}.

(** The decoded telemetry record, restricted to the fields read here. *)
Record space_time_t := {
  st_azimuth : double;
  st_elevation : double;
  st_bank : double;
  st_latitude : double;
  st_longitude : double;
  st_altitude : double;
  st_timestamp : Z
}.

Record rec_osd_t := {
  heat_osd_enabled : bool;
  heat_crosshair_offset_horizontal : Z;
  heat_crosshair_offset_vertical : Z;
  day_crosshair_offset_horizontal : Z;
  day_crosshair_offset_vertical : Z
}.

Record rotary_t := {
  azimuth_speed : double;
  elevation_speed : double;
  is_moving : bool
}.

Record osd_state_t := {
  has_actual_space_time : bool;
  actual_space_time : space_time_t;
  rec_osd : rec_osd_t;
  has_rotary : bool;
  rotary : rotary_t
}.

(* ===================================================================== *)
(** ** Navball widget ([widgets/navball.c]) *)
(* ===================================================================== *)

Module Navball.

Record vec3_t := { x : float; y : float; z : float }.
Record vec2_t := { u : float; v : float }.

(** Column-major 4x4 matrix, [float m[16]]. *)
Record mat4_t := { m : list float }.

Definition m_at (mat : mat4_t) (i : nat) : float :=
  default F32.zero (m mat !! i).

Definition vec3_new (x y z : float) : vec3_t := {| x := x; y := y; z := z |}.

Definition vec3_dot (a b : vec3_t) : float :=
  F32.add (F32.add (F32.mul (x a) (x b)) (F32.mul (y a) (y b)))
          (F32.mul (z a) (z b)).

Definition vec3_length (v : vec3_t) : float := F32.sqrt (vec3_dot v v).

Definition vec3_normalize (v : vec3_t) : vec3_t :=
  let len := vec3_length v in
  if F32.gtb len (F32.lit 1 10000)
  then {| x := F32.div (x v) len; y := F32.div (y v) len; z := F32.div (z v) len |}
  else v.

Definition mat4_mul_vec3 (mat : mat4_t) (v : vec3_t) : vec3_t :=
  let mul := F32.mul in
  let add := F32.add in
  {| x := add (add (mul (m_at mat 0) (x v)) (mul (m_at mat 4) (y v)))
              (mul (m_at mat 8) (z v));
     y := add (add (mul (m_at mat 1) (x v)) (mul (m_at mat 5) (y v)))
              (mul (m_at mat 9) (z v));
     z := add (add (mul (m_at mat 2) (x v)) (mul (m_at mat 6) (y v)))
              (mul (m_at mat 10) (z v)) |}.

(** Texture: RGBA bytes, four per pixel. *)
Record texture_t := {
  tex_data : option (list Z);
  tex_width : Z;
  tex_height : Z
}.

Record navball_lut_entry_t := {
  sphere_point : vec3_t;
  valid : bool
}.

Record navball_lut_t := {
  entries : list navball_lut_entry_t;
  size : Z;
  total_pixels : Z;
  radius : float
}.

(** The outcome of the two allocations of [navball_lut_create]. A block
    returned by [malloc] has indeterminate contents; a block returned by
    [calloc] is zeroed. *)
Record allocator := {
  malloc_lut : option navball_lut_t;
  calloc_succeeds : Z -> bool
}.

Definition zero_vec3 : vec3_t := vec3_new F32.zero F32.zero F32.zero.
Definition zero_entry : navball_lut_entry_t :=
  {| sphere_point := zero_vec3; valid := false |}.

(** [calloc(n, sizeof(navball_lut_entry_t))]: the count is converted to
    [size_t], and a negative count is too large to be allocated. *)
Definition calloc_entries (a : allocator) (n : Z)
    : option (list navball_lut_entry_t) :=
  if (0 <=? n) && calloc_succeeds a n
  then Some (replicate (Z.to_nat n) zero_entry)
  else None.

(** [arr[idx] = f(arr[idx])]; a store outside the block is undefined. *)
Definition array_modify {A : Type} (f : A -> A) (idx : Z) (arr : list A)
    : option (list A) :=
  if (0 <=? idx)
  then (e ← arr !! Z.to_nat idx; Some (<[Z.to_nat idx := f e]> arr))
  else None.

(** The entry computed for pixel [(x, y)] of a table of radius [radius];
    [None] leaves the stored point as it is and clears the flag. *)
Definition lut_point (radius : float) (x y : Z) : option vec3_t :=
  let sx := F32.sub (F32.of_Z x) radius in
  let sy := F32.sub (F32.of_Z y) radius in
  let dist_sq := F32.add (F32.mul sx sx) (F32.mul sy sy) in
  let radius_sq := F32.mul radius radius in
  if F32.leb dist_sq radius_sq then
    let sz := F32.sqrt (F32.sub radius_sq dist_sq) in
    Some (vec3_normalize (vec3_new sx sy sz))
  else None.

Definition navball_lut_create (a : allocator) (size : Z) : option navball_lut_t :=
  lut ← malloc_lut a;
  let total_pixels := Int32.mul size size in
  let radius := F32.div (F32.of_Z size) (F32.lit 2 1) in
  entries ← calloc_entries a total_pixels;
  entries ←
    for_lt 0 size (fun y entries =>
      for_lt 0 size (fun x entries =>
        let idx := Int32.add (Int32.mul y size) x in
        match lut_point radius x y with
        | Some point =>
            array_modify (fun _ => {| sphere_point := point; valid := true |})
                         idx entries
        | None =>
            array_modify (fun e => {| sphere_point := sphere_point e;
                                      valid := false |})
                         idx entries
        end) entries) entries;
  Some {| entries := entries; size := size; total_pixels := total_pixels;
          radius := radius |}.

Section WithLibm.
Context {libm : Libm}.

(** [theta / (2.0f * M_PI) + 0.5f] and [phi / M_PI + 0.5f] are computed
    in [double] and stored into [float] fields. *)
Definition sphere_to_uv (point : vec3_t) : vec2_t :=
  let point := vec3_normalize point in
  let theta := atan2f (x point) (z point) in
  let phi := asinf (y point) in
  let half := F64.of_float (F32.lit 1 2) in
  {| u := F32.of_double
            (F64.add (F64.div (F64.of_float theta)
                              (F64.mul (F64.of_float (F32.lit 2 1)) M_PI))
                     half);
     v := F32.of_double
            (F64.add (F64.div (F64.of_float phi) M_PI) half) |}.
End WithLibm.

End Navball.

Module NavballRender.
Import Navball.

(** [data[base + c]] *)
Definition byte_at (data : list Z) (base c : Z) : option Z :=
  if 0 <=? base + c then data !! Z.to_nat (base + c) else None.

(** One channel of the bilinear interpolation, cast to [uint8_t]. *)
Definition bilinear (tx ty : float) (p00 p10 p01 p11 : Z) : option Z :=
  let one := F32.of_Z 1 in
  let w00 := F32.mul (F32.mul (F32.sub one tx) (F32.sub one ty)) (F32.of_Z p00) in
  let w10 := F32.mul (F32.mul tx (F32.sub one ty)) (F32.of_Z p10) in
  let w01 := F32.mul (F32.mul (F32.sub one tx) ty) (F32.of_Z p01) in
  let w11 := F32.mul (F32.mul tx ty) (F32.of_Z p11) in
  F32.to_u8 (F32.add (F32.add (F32.add w00 w10) w01) w11).

(** [a % b] of C, undefined for [b = 0]. *)
Definition c_rem (a b : Z) : option Z :=
  if b =? 0 then None else Some (Z.rem a b).

Definition texture_sample (tex : option texture_t) (u v : float) : option Z :=
  match tex with
  | None => Some 4278190080
  | Some tex =>
      match tex_data tex with
      | None => Some 4278190080
      | Some data =>
          let w := tex_width tex in
          let h := tex_height tex in
          let u := F32.sub u (floorf u) in
          let v := F32.sub v (floorf v) in
          let fx := F32.mul u (F32.of_Z w) in
          let fy := F32.mul v (F32.of_Z h) in
          let fx := fmodf fx (F32.of_Z w) in
          let fy := fmodf fy (F32.of_Z h) in
          x0 ← F32.to_int fx;
          y0 ← F32.to_int fy;
          x1 ← c_rem (Int32.add x0 1) w;
          y1 ← c_rem (Int32.add y0 1) h;
          let tx := F32.sub fx (F32.of_Z x0) in
          let ty := F32.sub fy (F32.of_Z y0) in
          let p00 := Int32.mul (Int32.add (Int32.mul y0 w) x0) 4 in
          let p10 := Int32.mul (Int32.add (Int32.mul y0 w) x1) 4 in
          let p01 := Int32.mul (Int32.add (Int32.mul y1 w) x0) 4 in
          let p11 := Int32.mul (Int32.add (Int32.mul y1 w) x1) 4 in
          let channel c :=
            a00 ← byte_at data p00 c; a10 ← byte_at data p10 c;
            a01 ← byte_at data p01 c; a11 ← byte_at data p11 c;
            bilinear tx ty a00 a10 a01 a11 in
          r ← channel 0; g ← channel 1; b ← channel 2; a ← channel 3;
          Some (Color.pack a b g r)
      end
  end.

(** [#define DEG_TO_RAD(deg) ((deg) * M_PI / 180.0f)], stored in a [float]. *)
Definition DEG_TO_RAD (deg : float) : float :=
  F32.of_double
    (F64.div (F64.mul (F64.of_float deg) M_PI) (F64.of_float (F32.lit 180 1))).

Section WithServices.
Context {libm : Libm} {cglm : Cglm} {svg : Svg} {astronomy : Astronomy}.

(** The fields of the render context read by the navball. The pixel
    array that [ctx->framebuffer] points to is passed separately. *)
Record osd_context_t := {
  width : Z;
  height : Z;
  navball_enabled : bool;
  navball_x : Z;
  navball_y : Z;
  navball_size : Z;
  navball_texture : option texture_t;
  navball_lut : option navball_lut_t;
  navball_show_level_marker : bool;
  navball_show_center_indicator : bool;
  navball_center_indicator_scale : float;
  navball_center_indicator_svg : svg_resource_t;
  celestial_enabled : bool;
  celestial_show_sun : bool;
  celestial_show_moon : bool;
  celestial_indicator_scale : float;
  celestial_visibility_threshold : float;
  celestial_sun_front_svg : svg_resource_t;
  celestial_sun_back_svg : svg_resource_t;
  celestial_moon_front_svg : svg_resource_t;
  celestial_moon_back_svg : svg_resource_t
}.

(** The body of the per-pixel loop for a valid entry. *)
Definition shade_pixel (ctx : osd_context_t) (skin : texture_t)
    (rotation : mat4_t) (light_dir : vec3_t) (point : vec3_t)
    (x y : Z) (fb : framebuffer_t) : option framebuffer_t :=
  let rotated := mat4_mul_vec3 rotation point in
  let uv := sphere_to_uv rotated in
  color ← texture_sample (Some skin) (u uv) (v uv);
  let ndotl := vec3_dot point light_dir in
  let ndotl := if F32.ltb ndotl F32.zero then F32.of_Z 0 else ndotl in
  let lighting := F32.add (F32.lit 4 10) (F32.mul (F32.lit 6 10) ndotl) in
  r ← F32.to_u8 (F32.mul (F32.of_Z (Color.red color)) lighting);
  g ← F32.to_u8 (F32.mul (F32.of_Z (Color.green color)) lighting);
  b ← F32.to_u8 (F32.mul (F32.of_Z (Color.blue color)) lighting);
  let a := Color.alpha color in
  let screen_x := Int32.add (navball_x ctx) x in
  let screen_y := Int32.add (navball_y ctx) y in
  if (0 <=? screen_x) && (screen_x <? Int32.wrap (width ctx))
     && (0 <=? screen_y) && (screen_y <? Int32.wrap (height ctx))
  then Some (framebuffer_blend_pixel fb screen_x screen_y (Color.pack a b g r))
  else Some fb.

(** One celestial marker (sun or moon). *)
Definition render_marker (ctx : osd_context_t) (st : space_time_t)
    (show : bool) (pos : celestial_position_t)
    (front_svg back_svg : svg_resource_t) (indicator_size : Z)
    (fb : framebuffer_t) : option framebuffer_t :=
  if show && cp_valid pos then
    if F64.geb (cp_altitude pos)
               (F64.of_float (celestial_visibility_threshold ctx)) then
      let center_x := Int32.add (navball_x ctx) (Z.quot (navball_size ctx) 2) in
      let center_y := Int32.add (navball_y ctx) (Z.quot (navball_size ctx) 2) in
      let navball_radius := Z.quot (navball_size ctx) 2 in
      '(is_front, body_x, body_y) ←
        Celestial.celestial_to_navball_coords
          (cp_azimuth pos) (cp_altitude pos)
          (st_azimuth st) (st_elevation st) (st_bank st)
          center_x center_y navball_radius;
      let body_svg := if is_front : bool then front_svg else back_svg in
      render_size ←
        (if is_front then Some indicator_size
         else F32.to_int (F32.mul (F32.of_Z indicator_size) (F32.lit 7 10)));
      let render_alpha := if is_front then F32.of_Z 1 else F32.lit 1 2 in
      if svg_image body_svg then
        Some (svg_render_with_alpha fb body_svg
                (Int32.sub body_x (Z.quot render_size 2))
                (Int32.sub body_y (Z.quot render_size 2))
                render_size render_size render_alpha)
      else Some fb
    else Some fb
  else Some fb.

(** Returns the result flag and the pixel array after the call; [None]
    when the behaviour of the C function is undefined. A null [ctx] is
    [None] in the first argument. *)
Definition navball_render (ctx : option osd_context_t) (pb_state : osd_state_t)
    (pixels : list Z) : option (bool * list Z) :=
  match ctx with
  | None => Some (false, pixels)
  | Some ctx =>
    match navball_enabled ctx, navball_texture ctx, navball_lut ctx with
    | true, Some skin, Some lut =>
      let st := actual_space_time pb_state in
      let has_st := has_actual_space_time pb_state in
      let azimuth := if has_st then F32.of_double (st_azimuth st) else F32.zero in
      let elevation := if has_st then F32.of_double (st_elevation st) else F32.zero in
      let bank := if has_st then F32.of_double (st_bank st) else F32.zero in
      let pitch_rad := DEG_TO_RAD elevation in
      let roll_rad := DEG_TO_RAD azimuth in
      let yaw_rad := DEG_TO_RAD bank in
      let q := glm_euler_yxz_quat (pitch_rad, roll_rad, yaw_rad) in
      let rotation := {| m := concat (glm_quat_mat4 q) |} in
      let fb := framebuffer_init pixels (width ctx) (height ctx) in
      let light_dir :=
        vec3_normalize (vec3_new (F32.lit 3 10) (F32.lit 3 10) (F32.of_Z 1)) in
      (* sphere *)
      fb ← for_lt 0 (navball_size ctx) (fun y fb =>
             for_lt 0 (navball_size ctx) (fun x fb =>
               let idx := Int32.add (Int32.mul y (size lut)) x in
               entry ← (if 0 <=? idx then entries lut !! Z.to_nat idx else None);
               if valid entry
               then shade_pixel ctx skin rotation light_dir
                                (sphere_point entry) x y fb
               else Some fb) fb) fb;
      (* centre indicator *)
      fb ← (if navball_show_center_indicator ctx
               && svg_image (navball_center_indicator_svg ctx)
            then
              indicator_size ←
                F32.to_int (F32.mul (F32.of_Z (navball_size ctx))
                                    (navball_center_indicator_scale ctx));
              let off := Z.quot (Int32.sub (navball_size ctx) indicator_size) 2 in
              Some (svg_render fb (navball_center_indicator_svg ctx)
                      (Int32.add (navball_x ctx) off)
                      (Int32.add (navball_y ctx) off)
                      indicator_size indicator_size)
            else Some fb);
      (* sun and moon *)
      fb ← (if celestial_enabled ctx && has_st then
              let observer := {| latitude := st_latitude st;
                                 longitude := st_longitude st;
                                 altitude := st_altitude st |} in
              let positions := celestial_calculate (st_timestamp st) observer in
              indicator_size ←
                F32.to_int
                  (F32.mul (F32.mul (F32.of_Z (navball_size ctx)) (F32.lit 52 100))
                           (celestial_indicator_scale ctx));
              fb ← render_marker ctx st (celestial_show_sun ctx) (sun positions)
                     (celestial_sun_front_svg ctx) (celestial_sun_back_svg ctx)
                     indicator_size fb;
              render_marker ctx st (celestial_show_moon ctx) (moon positions)
                (celestial_moon_front_svg ctx) (celestial_moon_back_svg ctx)
                indicator_size fb
            else Some fb);
      (* level marker *)
      fb ← (if navball_show_level_marker ctx then
              let center_y :=
                Int32.add (navball_y ctx) (Z.quot (navball_size ctx) 2) in
              for_lt 0 (navball_size ctx) (fun x fb =>
                let screen_x := Int32.add (navball_x ctx) x in
                let lut_y := Z.quot (navball_size ctx) 2 in
                let idx := Int32.add (Int32.mul lut_y (size lut)) x in
                if (0 <=? idx) && (idx <? total_pixels lut) then
                  entry ← entries lut !! Z.to_nat idx;
                  if valid entry
                  then Some (framebuffer_blend_pixel fb screen_x center_y
                               4294967295)
                  else Some fb
                else Some fb) fb
            else Some fb);
      Some (true, fb_pixels fb)
    | _, _, _ => Some (false, pixels)
    end
  end.
End WithServices.

End NavballRender.

(* ===================================================================== *)
(** ** Line drawing and the crosshair widget ([widgets/crosshair.c]) *)
(* ===================================================================== *)

(** The square stamp of side [2 * half_thick + 1] drawn at every step. *)
Definition draw_stamp (fb : framebuffer_t) (x0 y0 half_thick : Z) (color : Z)
    : option framebuffer_t :=
  for_le (Int32.neg half_thick) half_thick (fun ty fb =>
    for_le (Int32.neg half_thick) half_thick (fun tx fb =>
      Some (draw_pixel fb (Int32.add x0 tx) (Int32.add y0 ty) color)) fb) fb.

(** The [while (1)] loop of Bresenham's algorithm, at most [fuel] steps. *)
Fixpoint draw_line_loop (fuel : nat) (fb : framebuffer_t)
    (x0 y0 x1 y1 dx dy sx sy err half_thick : Z) (color : Z)
    : option framebuffer_t :=
  match fuel with
  | O => None
  | S fuel' =>
      fb ← draw_stamp fb x0 y0 half_thick color;
      if (x0 =? x1) && (y0 =? y1) then Some fb
      else
        let e2 := Int32.mul 2 err in
        let '(err, x0) :=
          if Int32.neg dy <? e2 then (Int32.sub err dy, Int32.add x0 sx)
          else (err, x0) in
        let '(err, y0) :=
          if e2 <? dx then (Int32.add err dx, Int32.add y0 sy)
          else (err, y0) in
        draw_line_loop fuel' fb x0 y0 x1 y1 dx dy sx sy err half_thick color
  end.

(** Every step moves the current point toward the end point along an axis
    on which they differ, so [dx + dy + 1] steps are enough. *)
Definition draw_line (fb : framebuffer_t) (x0 y0 x1 y1 : Z) (color : Z)
    (thickness : float) : option framebuffer_t :=
  let dx := Int32.wrap (Z.abs (Int32.sub x1 x0)) in
  let dy := Int32.wrap (Z.abs (Int32.sub y1 y0)) in
  let sx := if x0 <? x1 then 1 else -1 in
  let sy := if y0 <? y1 then 1 else -1 in
  let err := Int32.sub dx dy in
  half_thick ← F32.to_int (F32.div thickness (F32.lit 2 1));
  draw_line_loop (Z.to_nat (dx + dy + 1)) fb x0 y0 x1 y1 dx dy sx sy err
                 half_thick color.

Module Crosshair.

Inductive crosshair_orientation_t :=
| CROSSHAIR_ORIENTATION_VERTICAL
| CROSSHAIR_ORIENTATION_DIAGONAL.

Record crosshair_element_t := {
  enabled : bool;
  color : Z;
  thickness : float
}.

Record crosshair_config_t := {
  crosshair_enabled : bool;
  orientation : crosshair_orientation_t;
  center_dot : crosshair_element_t;
  center_dot_radius : float;
  cross : crosshair_element_t;
  cross_length : float;
  cross_gap : float;
  circle : crosshair_element_t;
  circle_radius : float
}.

Definition crosshair_render_center_dot (fb : framebuffer_t)
    (config : crosshair_config_t) (cx cy : Z) : option framebuffer_t :=
  if negb (enabled (center_dot config)) then Some fb
  else draw_filled_circle fb cx cy (center_dot_radius config)
                          (color (center_dot config)).

(** A [float] expression passed for an [int] parameter is converted by
    truncation. *)
Definition line_f (fb : framebuffer_t) (x0 y0 x1 y1 : float) (c : Z)
    (t : float) : option framebuffer_t :=
  x0 ← F32.to_int x0; y0 ← F32.to_int y0;
  x1 ← F32.to_int x1; y1 ← F32.to_int y1;
  draw_line fb x0 y0 x1 y1 c t.

Definition crosshair_render_cross (fb : framebuffer_t)
    (config : crosshair_config_t) (cx cy : Z) : option framebuffer_t :=
  if negb (enabled (cross config)) then Some fb
  else
    let gap := cross_gap config in
    let length := cross_length config in
    let c := color (cross config) in
    let t := thickness (cross config) in
    let fx := F32.of_Z cx in
    let fy := F32.of_Z cy in
    let add := F32.add in
    let sub := F32.sub in
    match orientation config with
    | CROSSHAIR_ORIENTATION_VERTICAL =>
        y0 ← F32.to_int (sub fy gap); y1 ← F32.to_int (sub (sub fy gap) length);
        fb ← draw_line fb cx y0 cx y1 c t;
        y0 ← F32.to_int (add fy gap); y1 ← F32.to_int (add (add fy gap) length);
        fb ← draw_line fb cx y0 cx y1 c t;
        x0 ← F32.to_int (sub fx gap); x1 ← F32.to_int (sub (sub fx gap) length);
        fb ← draw_line fb x0 cy x1 cy c t;
        x0 ← F32.to_int (add fx gap); x1 ← F32.to_int (add (add fx gap) length);
        draw_line fb x0 cy x1 cy c t
    | CROSSHAIR_ORIENTATION_DIAGONAL =>
        let diag_gap := F32.mul gap (F32.lit 707 1000) in
        let diag_len := F32.mul length (F32.lit 707 1000) in
        fb ← line_f fb (add fx diag_gap) (sub fy diag_gap)
               (add (add fx diag_gap) diag_len) (sub (sub fy diag_gap) diag_len) c t;
        fb ← line_f fb (add fx diag_gap) (add fy diag_gap)
               (add (add fx diag_gap) diag_len) (add (add fy diag_gap) diag_len) c t;
        fb ← line_f fb (sub fx diag_gap) (add fy diag_gap)
               (sub (sub fx diag_gap) diag_len) (add (add fy diag_gap) diag_len) c t;
        line_f fb (sub fx diag_gap) (sub fy diag_gap)
          (sub (sub fx diag_gap) diag_len) (sub (sub fy diag_gap) diag_len) c t
    end.

Definition crosshair_render_circle (fb : framebuffer_t)
    (config : crosshair_config_t) (cx cy : Z) : option framebuffer_t :=
  if negb (enabled (circle config)) then Some fb
  else draw_circle_outline fb cx cy (circle_radius config)
                           (color (circle config)) (thickness (circle config)).

End Crosshair.

(* ===================================================================== *)
(** ** Plugin entry points ([osd_plugin.c]) *)
(* ===================================================================== *)

Module Plugin.
Import Crosshair.

Record speed_config_t := {
  speed_enabled : bool;
  speed_color : Z;
  speed_font_size : Z;
  threshold : float;
  max_speed_azimuth : float;
  max_speed_elevation : float
}.

Record osd_config_t := {
  crosshair : crosshair_config_t;
  timestamp_enabled : bool;
  speed_indicators : speed_config_t;
  variant_info_enabled : bool
}.

(** The render context. [ctx->framebuffer] points to the global pixel
    array, which is kept next to the context in [plugin_state]. *)
Record osd_context_t := {
  width : Z;
  height : Z;
  config : osd_config_t;
  proto_buffer : list Z;
  proto_size : Z;
  proto_valid : bool;
  radar_compass_enabled : bool;
  needs_render : bool;
  frame_count : Z
}.

Record plugin_state := {
  g_osd_ctx : osd_context_t;
  g_framebuffer : list Z
}.

(** What the widgets call outside the rendering core: the protobuf
    decoder, the text renderer behind the speed indicators, the variant
    information and the compass labels, and the timestamp widget, whose
    source file is not available. Each painter receives the framebuffer
    view and returns it after its writes. *)
Class Host := {
  pb_decode : list Z -> Z -> option osd_state_t;
  render_azimuth_speed :
    framebuffer_t -> osd_context_t -> Z -> Z -> double -> framebuffer_t;
  render_elevation_speed :
    framebuffer_t -> osd_context_t -> Z -> Z -> double -> framebuffer_t;
  timestamp_render :
    osd_context_t -> osd_state_t -> framebuffer_t -> bool * framebuffer_t;
  radar_compass_paint :
    osd_context_t -> osd_state_t -> framebuffer_t -> framebuffer_t;
  variant_info_paint :
    osd_context_t -> option osd_state_t -> framebuffer_t -> framebuffer_t
}.

Definition ctx_to_framebuffer (ctx : osd_context_t) (pixels : list Z)
    : framebuffer_t :=
  framebuffer_init pixels (width ctx) (height ctx).

Section WithHost.
Context {host : Host}.

Definition decode_proto_state (ctx : osd_context_t) : option osd_state_t :=
  if negb (proto_valid ctx) || (proto_size ctx =? 0) then None
  else pb_decode (proto_buffer ctx) (proto_size ctx).

Definition SPEED_RADIUS_HORIZONTAL : Z := 110.
Definition SPEED_RADIUS_VERTICAL : Z := 90.
Definition SPEED_INDICATOR_CLEAR_WIDTH : Z := 100.
Definition SPEED_INDICATOR_CLEAR_HEIGHT_PADDING : Z := 10.

Definition clear_speed_indicators (fb : framebuffer_t) (cx cy font_size : Z)
    : option framebuffer_t :=
  let clear_width := SPEED_INDICATOR_CLEAR_WIDTH in
  let clear_height := Int32.add font_size SPEED_INDICATOR_CLEAR_HEIGHT_PADDING in
  let half_w := Z.quot clear_width 2 in
  let half_h := Z.quot clear_height 2 in
  fb ← draw_rect_filled fb
         (Int32.sub (Int32.sub cx SPEED_RADIUS_HORIZONTAL) half_w)
         (Int32.sub cy half_h) clear_width clear_height 0;
  fb ← draw_rect_filled fb
         (Int32.sub (Int32.add cx SPEED_RADIUS_HORIZONTAL) half_w)
         (Int32.sub cy half_h) clear_width clear_height 0;
  fb ← draw_rect_filled fb (Int32.sub cx half_w)
         (Int32.sub (Int32.sub cy SPEED_RADIUS_VERTICAL) half_h)
         clear_width clear_height 0;
  draw_rect_filled fb (Int32.sub cx half_w)
    (Int32.sub (Int32.add cy SPEED_RADIUS_VERTICAL) half_h)
    clear_width clear_height 0.

Definition render_speed_indicators (ctx : osd_context_t)
    (pb_state : option osd_state_t) (cx cy : Z) (fb : framebuffer_t)
    : option framebuffer_t :=
  let sc := speed_indicators (config ctx) in
  if negb (speed_enabled sc) then Some fb
  else
    match pb_state with
    | None => Some fb
    | Some st =>
        if negb (has_rotary st) then Some fb
        else
          let az := azimuth_speed (rotary st) in
          let el := elevation_speed (rotary st) in
          let thr := F64.of_float (threshold sc) in
          let show_az := F64.gtb (SFabs az) thr in
          let show_el := F64.gtb (SFabs el) thr in
          let az_deg := F64.mul az (F64.of_float (max_speed_azimuth sc)) in
          let el_deg := F64.mul el (F64.of_float (max_speed_elevation sc)) in
          if negb (is_moving (rotary st)) || (negb show_az && negb show_el)
          then clear_speed_indicators fb cx cy (speed_font_size sc)
          else
            let fb := if show_az then render_azimuth_speed fb ctx cx cy az_deg
                      else fb in
            let fb := if show_el then render_elevation_speed fb ctx cx cy el_deg
                      else fb in
            Some fb
    end.

(** Every widget returns its result flag and the pixel array after its
    writes. [crosshair_render] reads [pb_state->rec_osd] without a null
    check: with the crosshair enabled and no decoded state the
    behaviour is undefined. *)
Definition crosshair_render (ctx : osd_context_t)
    (pb_state : option osd_state_t) (pixels : list Z)
    : option (bool * list Z) :=
  if negb (crosshair_enabled (crosshair (config ctx))) then Some (false, pixels)
  else
    st ← pb_state;
    let ro := rec_osd st in
    let offset_x := if heat_osd_enabled ro
                    then heat_crosshair_offset_horizontal ro
                    else day_crosshair_offset_horizontal ro in
    let offset_y := if heat_osd_enabled ro
                    then heat_crosshair_offset_vertical ro
                    else day_crosshair_offset_vertical ro in
    let cx := Int32.wrap (width ctx / 2 + offset_x) in
    let cy := Int32.wrap (height ctx / 2 + offset_y) in
    let fb := ctx_to_framebuffer ctx pixels in
    fb ← crosshair_render_circle fb (crosshair (config ctx)) cx cy;
    fb ← crosshair_render_cross fb (crosshair (config ctx)) cx cy;
    fb ← crosshair_render_center_dot fb (crosshair (config ctx)) cx cy;
    fb ← render_speed_indicators ctx pb_state cx cy fb;
    Some (true, fb_pixels fb).

Definition radar_compass_render (ctx : osd_context_t) (pb_state : osd_state_t)
    (pixels : list Z) : bool * list Z :=
  if negb (radar_compass_enabled ctx) then (false, pixels)
  else (true, fb_pixels (radar_compass_paint ctx pb_state
                           (ctx_to_framebuffer ctx pixels))).

Definition variant_info_render (ctx : osd_context_t)
    (state : option osd_state_t) (pixels : list Z) : bool * list Z :=
  if negb (variant_info_enabled (config ctx)) then (false, pixels)
  else (true, fb_pixels (variant_info_paint ctx state
                           (ctx_to_framebuffer ctx pixels))).

Definition render_widgets (ctx : osd_context_t)
    (proto_state : option osd_state_t) (pixels : list Z)
    : option (bool * list Z) :=
  let changed := false in
  '(c, pixels) ← crosshair_render ctx proto_state pixels;
  let changed := changed || c in
  let '(changed, pixels) :=
    match proto_state with
    | Some st =>
        let '(c, fb) := timestamp_render ctx st (ctx_to_framebuffer ctx pixels) in
        let changed := changed || c in
        let '(c, pixels) := radar_compass_render ctx st (fb_pixels fb) in
        (changed || c, pixels)
    | None => (changed, pixels)
    end in
  let '(c, pixels) := variant_info_render ctx proto_state pixels in
  Some (changed || c, pixels).

Definition set_needs_render (ctx : osd_context_t) (b : bool) : osd_context_t :=
  {| width := width ctx; height := height ctx; config := config ctx;
     proto_buffer := proto_buffer ctx; proto_size := proto_size ctx;
     proto_valid := proto_valid ctx;
     radar_compass_enabled := radar_compass_enabled ctx;
     needs_render := b; frame_count := frame_count ctx |}.

(** Returns the result of the call and the state after it. *)
Definition wasm_osd_render (s : plugin_state) : option (Z * plugin_state) :=
  let ctx := g_osd_ctx s in
  if negb (needs_render ctx) then Some (0, s)
  else
    (* memset(g_framebuffer, 0, sizeof(g_framebuffer)) *)
    let pixels := replicate (length (g_framebuffer s)) 0 in
    let pb_ptr := if proto_valid ctx then decode_proto_state ctx else None in
    '(changed, pixels) ← render_widgets ctx pb_ptr pixels;
    Some (if changed : bool then 1 else 0,
          {| g_osd_ctx := set_needs_render ctx false;
             g_framebuffer := pixels |}).
End WithHost.

End Plugin.

(* ===================================================================== *)
(** ** Reference instances of the external libraries *)
(* ===================================================================== *)

(** A reference C math library: every function is evaluated in fixed-point
    arithmetic with [FRAC] fractional bits and rounded once to the result
    format, which gives the correctly rounded value for the arguments met
    here (pixel offsets, unit vectors, angles of a few turns). It makes the
    examples executable; theorems that hold for every math library are
    stated over the [Libm] interface. *)
Module RefLibm.

Definition FRAC : Z := 192.
Definition ONE : Z := 2 ^ FRAC.

Definition fx_mul (a b : Z) : Z := (a * b) / ONE.
Definition fx_div (a b : Z) : Z := (a * ONE) / b.
Definition fx_sqrt (a : Z) : Z := Z.sqrt (a * ONE).

(** The value [m * 2^e] of a finite number, in fixed point. *)
Definition fx_of (m : positive) (e : Z) : Z :=
  if 0 <=? e + FRAC then Zpos m * 2 ^ (e + FRAC) else Zpos m / 2 ^ (- (e + FRAC)).

(** [sum_{k < n} (-1)^k t^(2k+1) / (2k+1)] *)
Fixpoint atan_series (n : nat) (k : Z) (pow t2 acc : Z) : Z :=
  match n with
  | O => acc
  | S n' => atan_series n' (k + 1) (- fx_mul pow t2) t2 (acc + pow / (2 * k + 1))
  end.

(** [atan t = 2 * atan (t / (1 + sqrt (1 + t^2)))] *)
Definition halve (t : Z) : Z := fx_div t (ONE + fx_sqrt (ONE + fx_mul t t)).

(** Arc tangent on [[0, 1]]. *)
Definition atan_unit (t : Z) : Z :=
  let t3 := halve (halve (halve t)) in
  8 * atan_series 32 0 t3 (fx_mul t3 t3) 0.

Definition PI : Z := Eval vm_compute in 4 * atan_unit ONE.
Definition HALF_PI : Z := PI / 2.

(** The angle in [[0, pi/2]] of the point [(ax, ay)] of the first
    quadrant, not the origin. *)
Definition angle_q1 (ax ay : Z) : Z :=
  if ay <=? ax then atan_unit (fx_div ay ax)
  else HALF_PI - atan_unit (fx_div ax ay).

(** [sum_{k < n} (-1)^k r^(2k+1) / (2k+1)!] and the same for the cosine. *)
Fixpoint sin_series (n : nat) (k : Z) (term r2 acc : Z) : Z :=
  match n with
  | O => acc
  | S n' =>
      sin_series n' (k + 1) (- fx_mul term r2 / ((2 * k + 2) * (2 * k + 3))) r2
                 (acc + term)
  end.

Fixpoint cos_series (n : nat) (k : Z) (term r2 acc : Z) : Z :=
  match n with
  | O => acc
  | S n' =>
      cos_series n' (k + 1) (- fx_mul term r2 / ((2 * k + 1) * (2 * k + 2))) r2
                 (acc + term)
  end.

(** Sine and cosine of a fixed-point angle: reduction to [[-pi/4, pi/4]]
    and recombination by quadrant. *)
Definition sin_cos (a : Z) : Z * Z :=
  let k := (2 * a + HALF_PI) / (2 * HALF_PI) in
  let r := a - k * HALF_PI in
  let r2 := fx_mul r r in
  let s := sin_series 40 0 r r2 0 in
  let c := cos_series 40 0 ONE r2 0 in
  match k mod 4 with
  | 0 => (s, c)
  | 1 => (c, - s)
  | 2 => (- s, - c)
  | _ => (- c, s)
  end.

Section Rounded.
Variables prec emax : Z.

Definition round (v : Z) (szero : bool) : spec_float :=
  binary_normalize prec emax v (- FRAC) szero.

Definition ref_sin (x : spec_float) : spec_float :=
  match x with
  | S754_finite s m e =>
      if e + Zpos (digits2_pos m) <? - 64 then x
      else round (fst (sin_cos (cond_Zopp s (fx_of m e)))) s
  | S754_zero _ => x
  | _ => S754_nan
  end.

Definition ref_cos (x : spec_float) : spec_float :=
  match x with
  | S754_finite s m e => round (snd (sin_cos (cond_Zopp s (fx_of m e)))) false
  | S754_zero _ => round ONE false
  | _ => S754_nan
  end.

(** The sign of the result is the sign of [y]; zeros and infinities
    give the limits fixed by the C standard. *)
Definition ref_atan2 (y x : spec_float) : spec_float :=
  let sign_of f := match f with
                   | S754_zero s | S754_infinity s | S754_finite s _ _ => s
                   | S754_nan => false
                   end in
  let sy := sign_of y in
  let signed v := round (cond_Zopp sy v) sy in
  match y, x with
  | S754_nan, _ | _, S754_nan => S754_nan
  | S754_zero _, (S754_zero sx | S754_finite sx _ _ | S754_infinity sx) =>
      if sx then signed PI else S754_zero sy
  | (S754_finite _ _ _ | S754_infinity _), S754_zero _ => signed HALF_PI
  | S754_infinity _, S754_infinity sx =>
      signed (if sx then 3 * (PI / 4) else PI / 4)
  | S754_infinity _, S754_finite _ _ _ => signed HALF_PI
  | S754_finite _ _ _, S754_infinity sx =>
      if sx then signed PI else S754_zero sy
  | S754_finite _ my ey, S754_finite sx mx ex =>
      let e0 := Z.min ex ey in
      let ax := Zpos mx * 2 ^ (ex - e0) in
      let ay := Zpos my * 2 ^ (ey - e0) in
      let a := angle_q1 ax ay in
      signed (if sx then PI - a else a)
  end.

Definition ref_asin (x : spec_float) : spec_float :=
  match x with
  | S754_finite s m e =>
      let v := fx_of m e in
      if ONE <? v then S754_nan
      else if e + Zpos (digits2_pos m) <? - 64 then x
      else
        let c := fx_sqrt (ONE - fx_mul v v) in
        round (cond_Zopp s (if c =? 0 then HALF_PI else angle_q1 c v)) s
  | S754_zero _ => x
  | _ => S754_nan
  end.
End Rounded.

#[export] Instance libm : Libm := {|
  sinf := ref_sin F32.prec F32.emax;
  cosf := ref_cos F32.prec F32.emax;
  atan2f := ref_atan2 F32.prec F32.emax;
  asinf := ref_asin F32.prec F32.emax;
  sin := ref_sin F64.prec F64.emax;
  cos := ref_cos F64.prec F64.emax
|}.

End RefLibm.

(** A reference cglm, after the right-handed [glm_euler_yxz_quat] and the
    [glm_quat_mat3] and [glm_quat_mat4] of the library's [euler.h] and
    [quat.h]. *)
Module RefCglm.
Section WithLibm.
Context {libm : Libm}.

Definition euler_yxz_quat (angles : vec3) : versor :=
  let '(a0, a1, a2) := angles in
  let half := F32.lit 1 2 in
  let mul := F32.mul in
  let xs := sinf (mul a0 half) in let xc := cosf (mul a0 half) in
  let ys := sinf (mul a1 half) in let yc := cosf (mul a1 half) in
  let zs := sinf (mul a2 half) in let zc := cosf (mul a2 half) in
  (F32.add (mul (mul xc ys) zs) (mul (mul xs yc) zc),
   F32.sub (mul (mul xc ys) zc) (mul (mul xs yc) zs),
   F32.sub (mul (mul xc yc) zs) (mul (mul xs ys) zc),
   F32.add (mul (mul xc yc) zc) (mul (mul xs ys) zs)).

(** The nine rotation entries [dest[col][row]] shared by both matrices. *)
Definition quat_rot (q : versor) (col row : Z) : float :=
  let '(x, y, z, w) := q in
  let mul := F32.mul in
  let dot := F32.add (F32.add (F32.add (mul x x) (mul y y)) (mul z z)) (mul w w) in
  let norm := F32.sqrt dot in
  let s := if F32.gtb norm F32.zero then F32.div (F32.lit 2 1) norm
           else F32.zero in
  let xx := mul (mul s x) x in let xy := mul (mul s x) y in
  let wx := mul (mul s w) x in let yy := mul (mul s y) y in
  let yz := mul (mul s y) z in let wy := mul (mul s w) y in
  let zz := mul (mul s z) z in let xz := mul (mul s x) z in
  let wz := mul (mul s w) z in
  let one := F32.of_Z 1 in
  match col, row with
  | 0, 0 => F32.sub (F32.sub one yy) zz
  | 1, 1 => F32.sub (F32.sub one xx) zz
  | 2, 2 => F32.sub (F32.sub one xx) yy
  | 0, 1 => F32.add xy wz
  | 1, 2 => F32.add yz wx
  | 2, 0 => F32.add xz wy
  | 1, 0 => F32.sub xy wz
  | 2, 1 => F32.sub yz wx
  | 0, 2 => F32.sub xz wy
  | _, _ => F32.zero
  end.

Definition quat_mat3 (q : versor) : mat3 :=
  (fun col => (fun row => quat_rot q col row) <$> seqZ 0 3) <$> seqZ 0 3.

Definition quat_mat4 (q : versor) : mat4 :=
  (fun col => (fun row =>
     if (col <? 3) && (row <? 3) then quat_rot q col row
     else if (col =? 3) && (row =? 3) then F32.of_Z 1
     else F32.zero) <$> seqZ 0 4) <$> seqZ 0 4.

#[export] Instance cglm : Cglm := {|
  glm_euler_yxz_quat := euler_yxz_quat;
  glm_quat_mat3 := quat_mat3;
  glm_quat_mat4 := quat_mat4
|}.
End WithLibm.
End RefCglm.

(** A host without SVG resources: every image pointer is null and nothing
    is ever rasterised. *)
Module NoSvg.
#[export] Instance svg : Svg := {|
  svg_resource_t := unit;
  svg_image := fun _ => false;
  svg_render := fun fb _ _ _ _ _ => fb;
  svg_render_with_alpha := fun fb _ _ _ _ _ _ => fb
|}.

Definition no_image : @svg_resource_t svg := tt.
End NoSvg.

(** An astronomy engine that reports no position (both bodies invalid). *)
Module NoAstronomy.
Definition no_position : celestial_position_t :=
  {| cp_azimuth := F64.zero; cp_altitude := F64.zero; cp_valid := false |}.

#[export] Instance astronomy : Astronomy := {|
  celestial_calculate := fun _ _ => {| sun := no_position; moon := no_position |}
|}.
End NoAstronomy.

(* ===================================================================== *)
(** * Properties *)
(* ===================================================================== *)

(** ** Loops *)

Lemma iterate_ext {S : Type} (f g : Z -> S -> option S) (l : list Z) (s : S) :
  (forall i s', In i l -> f i s' = g i s') -> iterate f l s = iterate g l s.
Proof.
  revert s. induction l as [|i l IH]; intros s H; simpl; [reflexivity|].
  rewrite (H i s) by (left; reflexivity).
  destruct (g i s) as [s'|]; [|reflexivity].
  apply IH. intros j s'' Hj. apply H. right. exact Hj.
Qed.

Lemma iterate_skip {S : Type} (f : Z -> S -> option S) (l : list Z) (s : S) :
  (forall i s', In i l -> f i s' = Some s') -> iterate f l s = Some s.
Proof.
  revert s. induction l as [|i l IH]; intros s H; simpl; [reflexivity|].
  rewrite (H i s) by (left; reflexivity).
  apply IH. intros j s' Hj. apply H. right. exact Hj.
Qed.

Lemma seqZ_nonpos (m len : Z) : len <= 0 -> seqZ m len = [].
Proof.
  intros H. unfold seqZ. replace (Z.to_nat len) with O by lia. reflexivity.
Qed.

Lemma for_le_empty {S : Type} (lo hi : Z) (body : Z -> S -> option S) (s : S) :
  hi < lo -> hi <> Int32.max_signed -> for_le lo hi body s = Some s.
Proof.
  intros Hlt Hne. unfold for_le.
  destruct (Z.eqb_spec hi Int32.max_signed) as [E|_]; [contradiction|].
  rewrite seqZ_nonpos by lia. reflexivity.
Qed.

Lemma for_le_ext {S : Type} (lo hi : Z) (f g : Z -> S -> option S) (s : S) :
  (forall i s', f i s' = g i s') -> for_le lo hi f s = for_le lo hi g s.
Proof.
  intros H. unfold for_le. destruct (hi =? Int32.max_signed); [reflexivity|].
  apply iterate_ext. intros i s' _. apply H.
Qed.

Lemma for_le_skip {S : Type} (lo hi : Z) (f : Z -> S -> option S) (s : S) :
  hi <> Int32.max_signed ->
  (forall i s', f i s' = Some s') -> for_le lo hi f s = Some s.
Proof.
  intros Hne H. unfold for_le.
  destruct (Z.eqb_spec hi Int32.max_signed) as [E|_]; [contradiction|].
  apply iterate_skip. intros i s' _. apply H.
Qed.

Lemma neg_of_negative (r : Z) :
  Int32.min_signed < r < 0 -> Int32.neg r = - r.
Proof.
  unfold Int32.neg, Int32.wrap, Int32.min_signed. intros H.
  rewrite Z.mod_small by lia. lia.
Qed.

(** ** Framebuffer *)

(** C5. For every position [(x, y)] outside [[0,width) x [0,height)], the
    blend primitive, and [draw_pixel] which calls it, return the framebuffer
    unchanged: every pixel keeps its value and there is no error case. *)
Theorem blend_pixel_out_of_bounds (fb : framebuffer_t) (x y color : Z) :
  ~ (0 <= x < fb_width fb /\ 0 <= y < fb_height fb) ->
  framebuffer_blend_pixel fb x y color = fb /\ draw_pixel fb x y color = fb.
Proof.
  intros Hout.
  assert (Hb : fb_in_bounds fb x y = false).
  { unfold fb_in_bounds.
    destruct (Z.leb_spec 0 x), (Z.ltb_spec x (fb_width fb)),
             (Z.leb_spec 0 y), (Z.ltb_spec y (fb_height fb));
      simpl; try reflexivity.
    exfalso. apply Hout. lia. }
  unfold draw_pixel, framebuffer_blend_pixel. rewrite Hb. split; reflexivity.
Qed.

Definition fb3 : framebuffer_t := framebuffer_init (replicate 9 0) 3 3.

Lemma blend_pixel_out_of_bounds_witness :
  framebuffer_blend_pixel fb3 3 1 4294967295 = fb3
  /\ draw_pixel fb3 3 1 4294967295 = fb3.
Proof.
  apply (blend_pixel_out_of_bounds fb3 3 1 4294967295).
  simpl. lia.
Defined.

(** ** Comparisons *)

Lemma SFcompare_antisym (a b : spec_float) :
  SFcompare b a = CompOpp <$> SFcompare a b.
Proof.
  destruct a as [sa|sa| |sa ma ea], b as [sb|sb| |sb mb eb];
    try destruct sa; try destruct sb; try reflexivity; simpl;
    rewrite (Z.compare_antisym ea eb);
    destruct (ea ?= eb); simpl; try reflexivity;
    rewrite (Pos.compare_cont_antisym ma mb Eq); simpl;
    destruct (Pos.compare_cont Eq ma mb); reflexivity.
Qed.

Lemma SFltb_asym (a b : spec_float) : SFltb a b = true -> SFltb b a = false.
Proof.
  unfold SFltb. rewrite (SFcompare_antisym a b).
  destruct (SFcompare a b) as [[| |]|]; simpl; congruence.
Qed.

(** Two numbers that neither comparison separates are the same number, two
    zeros, or one of them is a NaN. *)
Lemma SFltb_neither (a b : spec_float) :
  SFltb a b = false -> SFltb b a = false ->
  a = b \/ (exists sa sb, a = S754_zero sa /\ b = S754_zero sb)
  \/ a = S754_nan \/ b = S754_nan.
Proof.
  unfold SFltb. rewrite (SFcompare_antisym a b).
  destruct a as [sa|sa| |sa ma ea], b as [sb|sb| |sb mb eb];
    try destruct sa; try destruct sb; simpl; try discriminate; eauto 6.
  all: destruct (Z.compare_spec ea eb) as [E|E|E]; simpl; try discriminate.
  all: rewrite (Pos.compare_cont_spec ma mb Eq); simpl;
    destruct (Pos.compare_spec ma mb) as [E'|E'|E']; simpl; try discriminate.
  all: intros _ _; left; congruence.
Qed.
(** ** Casts *)

Lemma digits2_pos_bounds (m : positive) :
  2 ^ (Zpos (digits2_pos m) - 1) <= Zpos m < 2 ^ Zpos (digits2_pos m).
Proof.
  induction m as [p IH|p IH|]; simpl digits2_pos.
  - rewrite Pos2Z.inj_succ, Z.pow_succ_r by lia.
    replace (Z.succ (Zpos (digits2_pos p)) - 1) with (Z.succ (Zpos (digits2_pos p) - 1)) by lia.
    rewrite Z.pow_succ_r by lia. lia.
  - rewrite Pos2Z.inj_succ, Z.pow_succ_r by lia.
    replace (Z.succ (Zpos (digits2_pos p)) - 1) with (Z.succ (Zpos (digits2_pos p) - 1)) by lia.
    rewrite Z.pow_succ_r by lia. lia.
  - simpl. lia.
Qed.

Lemma SFcompare_negative (m1 m2 : positive) (e1 e2 : Z) :
  SFcompare (S754_finite true m1 e1) (S754_finite true m2 e2)
  = Some match e1 ?= e2 with
         | Lt => Gt
         | Gt => Lt
         | Eq => CompOpp (Zpos m1 ?= Zpos m2)
         end.
Proof.
  simpl. rewrite (Pos.compare_cont_spec m1 m2 Eq).
  change (Zpos m1 ?= Zpos m2) with (m1 ?= m2)%positive.
  destruct (e1 ?= e2); try reflexivity.
  destruct (m1 ?= m2)%positive; reflexivity.
Qed.

Lemma to_int_negative (x : spec_float) :
  valid_binary 24 128 x = true ->
  F32.leb x (F32.of_Z (-1)) = true ->
  F32.ltb (F32.of_Z (- 2 ^ 31)) x = true ->
  exists r, F32.to_int x = Some r /\ Int32.min_signed < r < 0.
Proof.
  change (F32.of_Z (-1)) with (S754_finite true 8388608 (-23)).
  change (F32.of_Z (- 2 ^ 31)) with (S754_finite true 8388608 8).
  unfold F32.leb, F32.ltb, SFleb, SFltb.
  destruct x as [s|s| |s m e]; intros Hv Hle Hlt;
    try discriminate; try (destruct s; discriminate).
  destruct s; [|discriminate].
  rewrite SFcompare_negative in Hle, Hlt.
  unfold valid_binary, bounded, canonical_mantissa, fexp, emin in Hv.
  apply andb_true_iff in Hv. destruct Hv as [Hc _].
  apply Z.eqb_eq in Hc.
  pose proof (digits2_pos_bounds m) as Hd.
  assert (He1 : -23 <= e).
  { clear - Hle. destruct (Z.compare_spec e (-23)) as [E|E|E];
      [lia|discriminate|lia]. }
  assert (He2 : e <= 8).
  { clear - Hlt. destruct (Z.compare_spec 8 e) as [E|E|E];
      [lia|discriminate|lia]. }
  assert (Hm : 8388608 <= Zpos m < 16777216).
  { assert (Zpos (digits2_pos m) = 24) as D by (clear - Hc He1; lia).
    rewrite D in Hd. exact Hd. }
  assert (He : -23 <= e <= 7).
  { split; [exact He1|].
    destruct (Z.eq_dec e 8) as [E|E]; [|clear - He2 E; lia].
    exfalso. subst e. rewrite Z.compare_refl in Hlt.
    destruct (Z.compare_spec 8388608 (Zpos m)) as [E|E|E]; try discriminate.
    clear - E Hm. lia. }
  clear Hle Hlt Hd Hc He1 He2.
  unfold F32.to_int, SFto_int, SFtrunc, cond_Zopp.
  set (v := if 0 <=? e then Zpos m * 2 ^ e else Zpos m / 2 ^ (- e)).
  assert (Hv : 1 <= v < 2147483648).
  { unfold v. destruct (Z.leb_spec 0 e) as [E|E].
    - assert (1 <= 2 ^ e <= 128).
      { split; [apply (Z.pow_le_mono_r 2 0 e); lia
               | apply (Z.pow_le_mono_r 2 e 7); lia]. }
      nia.
    - assert (1 <= 2 ^ (- e) <= 8388608).
      { split; [apply (Z.pow_le_mono_r 2 0 (- e)); lia
               | apply (Z.pow_le_mono_r 2 (- e) 23); lia]. }
      split.
      + apply Z.div_le_lower_bound; lia.
      + apply Z.div_lt_upper_bound; [lia|]. nia. }
  exists (- v). unfold Int32.min_signed, Int32.max_signed.
  assert (H1 : (- 2 ^ 31 <=? - v) = true)
    by (apply Z.leb_le; change (2 ^ 31) with 2147483648; lia).
  assert (H2 : (- v <=? 2 ^ 31 - 1) = true)
    by (apply Z.leb_le; change (2 ^ 31) with 2147483648; lia).
  rewrite H1, H2. change (2 ^ 31) with 2147483648.
  split; [reflexivity|lia].
Qed.

(** ** Degenerate radii *)


Definition fb3_centre : framebuffer_t :=
  framebuffer_init [0; 0; 0; 0; 4294967295; 0; 0; 0; 0] 3 3.



(** ** Order of the wedge angles *)

Lemma compass_to_math_rad_zero (sa sb : bool) :
  compass_to_math_rad (S754_zero sa) = compass_to_math_rad (S754_zero sb).
Proof. destruct sa, sb; reflexivity. Qed.

Lemma compass_to_math_rad_nan : compass_to_math_rad S754_nan = S754_nan.
Proof. reflexivity. Qed.

Lemma wrap_up_nan (fuel : nat) : wrap_up (S fuel) S754_nan = Some S754_nan.
Proof. reflexivity. Qed.

Lemma wrap_down_nan (fuel : nat) : wrap_down (S fuel) S754_nan = Some S754_nan.
Proof. reflexivity. Qed.

(** The loops on the two angles are independent of one another. *)
Definition normalize_angle (fuel : nat) (a : float) : option float :=
  a ← wrap_up fuel a; wrap_down fuel a.

Lemma wedge_angles_unfold (fuel : nat) (s e : float) :
  wedge_angles fuel s e =
  let '(s, e) := if F32.gtb s e then (e, s) else (s, e) in
  sr ← normalize_angle fuel (compass_to_math_rad s);
  er ← normalize_angle fuel (compass_to_math_rad e);
  Some (sr, er).
Proof.
  unfold wedge_angles, normalize_angle.
  destruct (F32.gtb s e); simpl;
    repeat match goal with
           | |- context [wrap_up ?f ?a] => destruct (wrap_up f a); simpl
           | |- context [wrap_down ?f ?a] => destruct (wrap_down f a); simpl
           end; reflexivity.
Qed.

Lemma normalize_angle_nan (fuel : nat) (a : float) :
  normalize_angle fuel S754_nan = Some a -> a = S754_nan.
Proof.
  destruct fuel; [discriminate|]. unfold normalize_angle.
  rewrite wrap_up_nan.
  unfold mbind, option_bind. cbv beta iota.
  rewrite wrap_down_nan. congruence.
Qed.

Section WedgeFacts.
Context {libm : Libm}.

Lemma SFleb_nan_r (a : float) : SFleb a S754_nan = false.
Proof. destruct a; reflexivity. Qed.

Lemma SFltb_nan_r (a : float) : SFltb a S754_nan = false.
Proof. destruct a; reflexivity. Qed.

(** With a NaN bound no pixel passes the angle test. *)
Lemma wedge_covers_nan (radius a : float) (x y : Z) :
  wedge_covers radius S754_nan a x y = false
  /\ wedge_covers radius a S754_nan x y = false.
Proof.
  unfold wedge_covers, F32.ltb, F32.geb, F32.leb, F32.gtb. split.
  - rewrite SFltb_nan_r.
    destruct (SFltb _ _); [reflexivity|].
    rewrite SFleb_nan_r. apply andb_false_r.
  - simpl SFltb at 1.
    destruct (SFltb _ _); [reflexivity|].
    simpl. reflexivity.
Qed.

(** C9. [draw_wedge_filled] does not depend on the order of its two angle
    arguments: for every framebuffer, centre, radius, colour, pair of angles
    and loop bound, the call with [(s, e)] and the call with [(e, s)] have
    the same outcome, hence write the same pixels with the same colours. *)
Theorem draw_wedge_filled_swap (fuel : nat) (fb : framebuffer_t)
    (cx cy color : Z) (radius s e : float) :
  draw_wedge_filled fuel fb cx cy radius s e color
  = draw_wedge_filled fuel fb cx cy radius e s color.
Proof.
  unfold draw_wedge_filled. rewrite !wedge_angles_unfold.
  unfold F32.gtb.
  destruct (SFltb e s) eqn:Hes.
  { rewrite (SFltb_asym _ _ Hes). reflexivity. }
  destruct (SFltb s e) eqn:Hse; [reflexivity|].
  destruct (SFltb_neither _ _ Hes Hse) as [E|[(sa & sb & Ea & Eb)|HN]].
  - subst. reflexivity.
  - subst. rewrite (compass_to_math_rad_zero sb sa). reflexivity.
  - assert (Hcov : forall a b, (a = S754_nan \/ b = S754_nan) ->
              forall fb0 : framebuffer_t,
              (r ← F32.to_int radius;
               for_le (Int32.neg r) r (fun y fb1 =>
                 for_le (Int32.neg r) r (fun x fb2 =>
                   if wedge_covers radius a b x y
                   then Some (draw_pixel fb2 (Int32.add cx x) (Int32.add cy y) color)
                   else Some fb2) fb1) fb0)
              = (r ← F32.to_int radius;
                 for_le (Int32.neg r) r (fun y fb1 =>
                   for_le (Int32.neg r) r (fun x fb2 => Some fb2) fb1) fb0)).
    { intros a b Hab fb0. destruct (F32.to_int radius) as [r|]; [|reflexivity].
      simpl. apply for_le_ext. intros y fb1. apply for_le_ext. intros x fb2.
      destruct Hab as [-> | ->].
      - rewrite (proj1 (wedge_covers_nan radius b x y)). reflexivity.
      - rewrite (proj2 (wedge_covers_nan radius a x y)). reflexivity. }
    destruct (normalize_angle fuel (compass_to_math_rad s)) as [ns|] eqn:Hs;
      destruct (normalize_angle fuel (compass_to_math_rad e)) as [ne|] eqn:He;
      simpl; try reflexivity.
    assert (Hn : ns = S754_nan \/ ne = S754_nan).
    { destruct HN as [-> | ->].
      - right. rewrite compass_to_math_rad_nan in He.
        exact (normalize_angle_nan _ _ He).
      - left. rewrite compass_to_math_rad_nan in Hs.
        exact (normalize_angle_nan _ _ Hs). }
    rewrite (Hcov ns ne Hn), (Hcov ne ns); [reflexivity|tauto].
Qed.

End WedgeFacts.

(** ** Navball: lookup table *)

(** C6. [navball_lut_create] is deterministic: two successful calls with
    the same size return the same table, whatever the allocator returned
    (the block of the table is fully assigned and the entries come zeroed
    from [calloc]), so validity flags and sphere points agree entry by
    entry. *)
Theorem navball_lut_create_deterministic
    (a1 a2 : Navball.allocator) (size : Z) (lut1 lut2 : Navball.navball_lut_t) :
  Navball.navball_lut_create a1 size = Some lut1 ->
  Navball.navball_lut_create a2 size = Some lut2 ->
  lut1 = lut2
  /\ forall i : nat,
       Navball.valid <$> (Navball.entries lut1 !! i)
       = Navball.valid <$> (Navball.entries lut2 !! i)
       /\ Navball.sphere_point <$> (Navball.entries lut1 !! i)
          = Navball.sphere_point <$> (Navball.entries lut2 !! i).
Proof.
  unfold Navball.navball_lut_create, Navball.calloc_entries.
  intros H1 H2.
  destruct (Navball.malloc_lut a1) as [g1|]; [|discriminate].
  destruct (Navball.malloc_lut a2) as [g2|]; [|discriminate].
  simpl in H1, H2.
  destruct ((0 <=? Int32.mul size size)
            && Navball.calloc_succeeds a1 (Int32.mul size size));
    [|discriminate].
  destruct ((0 <=? Int32.mul size size)
            && Navball.calloc_succeeds a2 (Int32.mul size size));
    [|discriminate].
  simpl in H1, H2. rewrite H1 in H2.
  assert (E : lut1 = lut2) by congruence.
  subst lut2. split; [reflexivity|]. intros i. split; reflexivity.
Qed.

(** Two allocators that succeed and differ in the contents of the block
    returned by [malloc]. *)
Definition alloc_a : Navball.allocator :=
  {| Navball.malloc_lut :=
       Some {| Navball.entries := []; Navball.size := 0;
               Navball.total_pixels := 0; Navball.radius := F32.zero |};
     Navball.calloc_succeeds := fun _ => true |}.

Definition alloc_b : Navball.allocator :=
  {| Navball.malloc_lut :=
       Some {| Navball.entries := [Navball.zero_entry]; Navball.size := 7;
               Navball.total_pixels := -1; Navball.radius := S754_nan |};
     Navball.calloc_succeeds := fun n => n <? 1000000 |}.

Definition lut4 : Navball.navball_lut_t :=
  Eval vm_compute in
    default {| Navball.entries := []; Navball.size := 0;
               Navball.total_pixels := 0; Navball.radius := F32.zero |}
            (Navball.navball_lut_create alloc_a 4).

Lemma navball_lut_create_deterministic_witness :
  Navball.navball_lut_create alloc_a 4 = Some lut4
  /\ Navball.navball_lut_create alloc_b 4 = Some lut4
  /\ lut4 = lut4.
Proof.
  split; [vm_compute; reflexivity|]. split; [vm_compute; reflexivity|].
  apply (navball_lut_create_deterministic alloc_a alloc_b 4 lut4 lut4);
    vm_compute; reflexivity.
Defined.

(** ** Navball: guard of the render step *)

Section NavballGuard.
Context {libm : Libm} {cglm : Cglm} {svg : Svg} {astronomy : Astronomy}.

(** C10. If the context pointer is null, the navball is disabled, or its
    texture or its lookup table is null, [navball_render] returns [false]
    and the pixel array is the one it was given: no pixel is written. *)
Theorem navball_render_not_ready
    (ctx : option NavballRender.osd_context_t) (pb_state : osd_state_t)
    (pixels : list Z) :
  match ctx with
  | None => True
  | Some c => NavballRender.navball_enabled c = false
              \/ NavballRender.navball_texture c = None
              \/ NavballRender.navball_lut c = None
  end ->
  NavballRender.navball_render ctx pb_state pixels = Some (false, pixels).
Proof.
  unfold NavballRender.navball_render.
  destruct ctx as [c|]; [|reflexivity].
  intros [H|[H|H]]; rewrite H.
  - reflexivity.
  - destruct (NavballRender.navball_enabled c); reflexivity.
  - destruct (NavballRender.navball_enabled c),
             (NavballRender.navball_texture c); reflexivity.
Qed.

End NavballGuard.

Definition zero_state : osd_state_t :=
  {| has_actual_space_time := false;
     actual_space_time :=
       {| st_azimuth := F64.zero; st_elevation := F64.zero; st_bank := F64.zero;
          st_latitude := F64.zero; st_longitude := F64.zero;
          st_altitude := F64.zero; st_timestamp := 0 |};
     rec_osd :=
       {| heat_osd_enabled := false;
          heat_crosshair_offset_horizontal := 0;
          heat_crosshair_offset_vertical := 0;
          day_crosshair_offset_horizontal := 0;
          day_crosshair_offset_vertical := 0 |};
     has_rotary := false;
     rotary := {| azimuth_speed := F64.zero; elevation_speed := F64.zero;
                  is_moving := false |} |}.

(** A context whose navball is disabled. *)
Definition ctx_navball_off : NavballRender.osd_context_t (svg := NoSvg.svg) :=
  {| NavballRender.width := 3; NavballRender.height := 3;
     NavballRender.navball_enabled := false;
     NavballRender.navball_x := 0; NavballRender.navball_y := 0;
     NavballRender.navball_size := 3;
     NavballRender.navball_texture := None;
     NavballRender.navball_lut := Some lut4;
     NavballRender.navball_show_level_marker := true;
     NavballRender.navball_show_center_indicator := false;
     NavballRender.navball_center_indicator_scale := F32.zero;
     NavballRender.navball_center_indicator_svg := NoSvg.no_image;
     NavballRender.celestial_enabled := false;
     NavballRender.celestial_show_sun := false;
     NavballRender.celestial_show_moon := false;
     NavballRender.celestial_indicator_scale := F32.zero;
     NavballRender.celestial_visibility_threshold := F32.zero;
     NavballRender.celestial_sun_front_svg := NoSvg.no_image;
     NavballRender.celestial_sun_back_svg := NoSvg.no_image;
     NavballRender.celestial_moon_front_svg := NoSvg.no_image;
     NavballRender.celestial_moon_back_svg := NoSvg.no_image |}.

Lemma navball_render_not_ready_witness :
  NavballRender.navball_render
    (libm := RefLibm.libm) (cglm := @RefCglm.cglm RefLibm.libm) (astronomy := NoAstronomy.astronomy)
    (Some ctx_navball_off) zero_state [1; 2; 3; 4; 5; 6; 7; 8; 9]
  = Some (false, [1; 2; 3; 4; 5; 6; 7; 8; 9]).
Proof.
  apply (navball_render_not_ready (Some ctx_navball_off)).
  left. reflexivity.
Defined.

(** ** Plugin: result of the render entry point *)

Section RenderResult.
Import Plugin.
Context {host : Host}.

(** The flag computed by [render_widgets]: the crosshair is enabled, or
    the telemetry was decoded and the timestamp widget reported a render or
    the compass is enabled, or the variant information is enabled.
    [pixels1] is the pixel array after the crosshair. *)
Definition widgets_rendered (ctx : osd_context_t)
    (proto_state : option osd_state_t) (pixels1 : list Z) : bool :=
  Crosshair.crosshair_enabled (crosshair (config ctx))
  || match proto_state with
     | Some st =>
         fst (timestamp_render ctx st (ctx_to_framebuffer ctx pixels1))
         || radar_compass_enabled ctx
     | None => false
     end
  || variant_info_enabled (config ctx).

Lemma crosshair_render_flag (ctx : osd_context_t) (pb : option osd_state_t)
    (pixels : list Z) (c : bool) (pixels1 : list Z) :
  crosshair_render ctx pb pixels = Some (c, pixels1) ->
  c = Crosshair.crosshair_enabled (crosshair (config ctx)).
Proof.
  unfold crosshair_render.
  destruct (Crosshair.crosshair_enabled (crosshair (config ctx))); simpl.
  - destruct pb as [st|]; simpl; [|discriminate].
    repeat match goal with
           | |- context [?f ≫= _] =>
               match f with
               | Some _ => fail 1
               | _ => destruct f; simpl; [|discriminate]
               end
           end.
    congruence.
  - congruence.
Qed.

Lemma crosshair_render_disabled (ctx : osd_context_t) (pb : option osd_state_t)
    (pixels : list Z) :
  Crosshair.crosshair_enabled (crosshair (config ctx)) = false ->
  crosshair_render ctx pb pixels = Some (false, pixels).
Proof. unfold crosshair_render. intros ->. reflexivity. Qed.

Lemma render_widgets_flag (ctx : osd_context_t) (pb : option osd_state_t)
    (pixels : list Z) (changed : bool) (pixels' : list Z) :
  render_widgets ctx pb pixels = Some (changed, pixels') ->
  exists c pixels1,
    crosshair_render ctx pb pixels = Some (c, pixels1)
    /\ changed = widgets_rendered ctx pb pixels1.
Proof.
  unfold render_widgets, widgets_rendered.
  destruct (crosshair_render ctx pb pixels) as [[c pixels1]|] eqn:Hc;
    simpl; [|discriminate].
  rewrite (crosshair_render_flag _ _ _ _ _ Hc).
  intros H. exists (Crosshair.crosshair_enabled (crosshair (config ctx))), pixels1.
  split; [reflexivity|].
  unfold radar_compass_render, variant_info_render in H.
  destruct pb as [st|].
  - destruct (timestamp_render ctx st (ctx_to_framebuffer ctx pixels1))
      as [ts fb] eqn:Hts. simpl in *.
    destruct (radar_compass_enabled ctx), (variant_info_enabled (config ctx));
      simpl in H; inversion H; subst; simpl;
      destruct (Crosshair.crosshair_enabled (crosshair (config ctx))), ts;
      reflexivity.
  - destruct (variant_info_enabled (config ctx)); simpl in H; inversion H;
      destruct (Crosshair.crosshair_enabled (crosshair (config ctx)));
      reflexivity.
Qed.


End RenderResult.

(** A host whose decoder yields the default message and whose fonts have no
    glyphs: the text painters leave the framebuffer as it is, and the
    timestamp widget reports no render. *)
Module QuietHost.
#[export] Instance host : Plugin.Host := {|
  Plugin.pb_decode := fun _ _ => Some zero_state;
  Plugin.render_azimuth_speed := fun fb _ _ _ _ => fb;
  Plugin.render_elevation_speed := fun fb _ _ _ _ => fb;
  Plugin.timestamp_render := fun _ _ fb => (false, fb);
  Plugin.radar_compass_paint := fun _ _ fb => fb;
  Plugin.variant_info_paint := fun _ _ fb => fb
|}.
End QuietHost.

Definition element_off : Crosshair.crosshair_element_t :=
  {| Crosshair.enabled := false; Crosshair.color := 4294967295;
     Crosshair.thickness := F32.of_Z 2 |}.

(** The crosshair widget is enabled and its three elements are switched
    off; the other widgets are disabled. *)
Definition config_bare_crosshair : Plugin.osd_config_t :=
  {| Plugin.crosshair :=
       {| Crosshair.crosshair_enabled := true;
          Crosshair.orientation := Crosshair.CROSSHAIR_ORIENTATION_VERTICAL;
          Crosshair.center_dot := element_off;
          Crosshair.center_dot_radius := F32.of_Z 2;
          Crosshair.cross := element_off;
          Crosshair.cross_length := F32.of_Z 10;
          Crosshair.cross_gap := F32.of_Z 3;
          Crosshair.circle := element_off;
          Crosshair.circle_radius := F32.of_Z 5 |};
     Plugin.timestamp_enabled := false;
     Plugin.speed_indicators :=
       {| Plugin.speed_enabled := false; Plugin.speed_color := 4294967295;
          Plugin.speed_font_size := 14; Plugin.threshold := F32.zero;
          Plugin.max_speed_azimuth := F32.of_Z 35;
          Plugin.max_speed_elevation := F32.of_Z 35 |};
     Plugin.variant_info_enabled := false |}.

Definition plugin_ctx (needs : bool) : Plugin.osd_context_t :=
  {| Plugin.width := 3; Plugin.height := 3;
     Plugin.config := config_bare_crosshair;
     Plugin.proto_buffer := [8]; Plugin.proto_size := 1;
     Plugin.proto_valid := true;
     Plugin.radar_compass_enabled := false;
     Plugin.needs_render := needs; Plugin.frame_count := 1 |}.

(** After [wasm_osd_init] and one state update: a cleared pixel array and
    [needs_render] set. *)
Definition plugin_fresh : Plugin.plugin_state :=
  {| Plugin.g_osd_ctx := plugin_ctx true;
     Plugin.g_framebuffer := replicate 9 0 |}.


(** ** Loops over a window *)

Lemma iterate_app {S : Type} (f : Z -> S -> option S) (l1 l2 : list Z) (s : S) :
  iterate f (l1 ++ l2) s = iterate f l1 s ≫= iterate f l2.
Proof.
  revert s. induction l1 as [|i l1 IH]; intros s; simpl; [reflexivity|].
  destruct (f i s) as [s'|]; [apply IH|reflexivity].
Qed.

Lemma iterate_skip_inv {S : Type} (P : S -> Prop) (f : Z -> S -> option S)
    (l : list Z) (s : S) :
  P s -> (forall i s', In i l -> P s' -> f i s' = Some s') ->
  iterate f l s = Some s.
Proof.
  intros Hs H. induction l as [|i l IH]; simpl; [reflexivity|].
  rewrite (H i s) by (auto; left; reflexivity).
  apply IH. intros j s' Hj. apply H. right. exact Hj.
Qed.

Lemma iterate_preserves {S : Type} (P : S -> Prop) (f : Z -> S -> option S)
    (l : list Z) (s s' : S) :
  (forall i a b, P a -> f i a = Some b -> P b) ->
  P s -> iterate f l s = Some s' -> P s'.
Proof.
  intros Hf. revert s. induction l as [|i l IH]; intros s Hs; simpl.
  - intros [= <-]. exact Hs.
  - destruct (f i s) as [s1|] eqn:E; [|discriminate].
    apply IH. exact (Hf _ _ _ Hs E).
Qed.

(** Iterations outside the window [[a, b]] that leave the state as it is can
    be dropped. *)
Lemma for_le_window {S : Type} (P : S -> Prop) (lo hi a b : Z)
    (f : Z -> S -> option S) (s : S) :
  lo <= a -> a <= b + 1 -> b <= hi ->
  hi <> Int32.max_signed -> b <> Int32.max_signed ->
  (forall i x y, P x -> f i x = Some y -> P y) ->
  (forall i s', (lo <= i < a \/ b < i <= hi) -> P s' -> f i s' = Some s') ->
  P s ->
  for_le lo hi f s = for_le a b f s.
Proof.
  intros Hla Hab Hbh Hmax Hmaxb Hpres Hskip Hs. unfold for_le.
  destruct (Z.eqb_spec hi Int32.max_signed) as [E|_]; [contradiction|].
  destruct (Z.eqb_spec b Int32.max_signed) as [E|_]; [contradiction|].
  replace (hi - lo + 1) with ((a - lo) + ((b - a + 1) + (hi - b))) by lia.
  rewrite seqZ_app by lia. rewrite seqZ_app by lia.
  rewrite iterate_app.
  rewrite (iterate_skip_inv P f (seqZ lo (a - lo)) s Hs).
  2:{ intros i s' Hi Hp. apply Hskip; [|exact Hp].
      apply list_elem_of_In, elem_of_seqZ in Hi. lia. }
  cbn [mbind option_bind]. rewrite iterate_app.
  replace (lo + (a - lo)) with a by lia.
  destruct (iterate f (seqZ a (b - a + 1)) s) as [s1|] eqn:E1; [|reflexivity].
  cbn [mbind option_bind]. apply (iterate_skip_inv P).
  - exact (iterate_preserves P f _ _ _ Hpres Hs E1).
  - intros i s' Hi Hp. apply Hskip; [|exact Hp].
    apply list_elem_of_In, elem_of_seqZ in Hi. lia.
Qed.

Lemma for_le_preserves {S : Type} (P : S -> Prop) (lo hi : Z)
    (f : Z -> S -> option S) (s s' : S) :
  (forall i a b, P a -> f i a = Some b -> P b) ->
  P s -> for_le lo hi f s = Some s' -> P s'.
Proof.
  unfold for_le. destruct (hi =? Int32.max_signed); [discriminate|].
  apply iterate_preserves.
Qed.

Lemma wrap_small (n : Z) :
  Int32.min_signed <= n <= Int32.max_signed -> Int32.wrap n = n.
Proof.
  unfold Int32.wrap, Int32.min_signed, Int32.max_signed.
  change (2 ^ 31) with 2147483648. change (2 ^ 32) with 4294967296.
  intros H. rewrite Z.mod_small by lia. lia.
Qed.

(** ** Pixel writes *)

Definition fb_dims (w h : Z) (fb : framebuffer_t) : Prop :=
  fb_width fb = w /\ fb_height fb = h.

Lemma draw_pixel_dims (w h : Z) (fb : framebuffer_t) (x y color : Z) :
  fb_dims w h fb -> fb_dims w h (draw_pixel fb x y color).
Proof.
  unfold fb_dims, draw_pixel, framebuffer_blend_pixel.
  destruct (fb_in_bounds fb x y); [|tauto].
  destruct (fb_pixels fb !! fb_index fb x y); tauto.
Qed.

Lemma draw_pixel_outside (w h : Z) (fb : framebuffer_t) (x y color : Z) :
  fb_dims w h fb -> ~ (0 <= x < w /\ 0 <= y < h) -> draw_pixel fb x y color = fb.
Proof.
  intros [Hw Hh] Hout. apply blend_pixel_out_of_bounds. rewrite Hw, Hh. exact Hout.
Qed.

Lemma for_le_ext_inv {S : Type} (P : S -> Prop) (lo hi : Z)
    (f g : Z -> S -> option S) (s : S) :
  (forall i x y, P x -> g i x = Some y -> P y) ->
  (forall i s', P s' -> f i s' = g i s') ->
  P s -> for_le lo hi f s = for_le lo hi g s.
Proof.
  intros Hpres Hfg Hs. unfold for_le.
  destruct (hi =? Int32.max_signed); [reflexivity|].
  generalize (seqZ lo (hi - lo + 1)). intros l. revert s Hs.
  induction l as [|i l IH]; intros s Hs; simpl; [reflexivity|].
  rewrite (Hfg i s Hs). destruct (g i s) as [s1|] eqn:E; [|reflexivity].
  apply IH. exact (Hpres _ _ _ Hs E).
Qed.

(** A scan of a square of half side [r] around [(cx, cy)] writes only within
    the framebuffer: on a framebuffer of dimensions [w x h] it is the scan of
    any window of offsets that contains all positions inside it. *)
Lemma scan_window (w h : Z) (covers : Z -> Z -> bool) (cx cy r k color : Z)
    (fb : framebuffer_t) :
  fb_dims w h fb ->
  0 <= k <= r -> r < 1000000 ->
  - 1000000 < cx < 1000000 -> - 1000000 < cy < 1000000 ->
  (forall x, 0 <= cx + x < w -> - k <= x <= k) ->
  (forall y, 0 <= cy + y < h -> - k <= y <= k) ->
  for_le (Int32.neg r) r (fun y fb =>
    for_le (Int32.neg r) r (fun x fb =>
      if covers x y
      then Some (draw_pixel fb (Int32.add cx x) (Int32.add cy y) color)
      else Some fb) fb) fb
  = for_le (- k) k (fun y fb =>
      for_le (- k) k (fun x fb =>
        if covers x y
        then Some (draw_pixel fb (Int32.add cx x) (Int32.add cy y) color)
        else Some fb) fb) fb.
Proof.
  intros Hd Hk Hr Hcx Hcy Hx Hy.
  assert (Hneg : Int32.neg r = - r).
  { unfold Int32.neg. apply wrap_small.
    unfold Int32.min_signed, Int32.max_signed.
    change (2 ^ 31) with 2147483648. lia. }
  assert (Hmax : forall n, n < 1000000 -> n <> Int32.max_signed).
  { intros n Hn. unfold Int32.max_signed. change (2 ^ 31) with 2147483648. lia. }
  assert (Hadd : forall c i, - 1000000 < c < 1000000 -> - r <= i <= r ->
                             Int32.add c i = c + i).
  { intros c i Hc Hi. unfold Int32.add. apply wrap_small.
    unfold Int32.min_signed, Int32.max_signed.
    change (2 ^ 31) with 2147483648. lia. }
  set (inner := fun (y x : Z) (fb : framebuffer_t) =>
                  if covers x y
                  then Some (draw_pixel fb (Int32.add cx x) (Int32.add cy y) color)
                  else Some fb).
  assert (Hinner : forall y i a b, fb_dims w h a -> inner y i a = Some b ->
                                   fb_dims w h b).
  { intros y i a b Ha. unfold inner. destruct (covers i y); intros [= <-];
      [apply draw_pixel_dims|]; exact Ha. }
  assert (Hrow : forall lo hi y a b, fb_dims w h a ->
                   for_le lo hi (inner y) a = Some b -> fb_dims w h b).
  { intros lo hi y a b Ha. apply for_le_preserves; [apply Hinner|exact Ha]. }
  rewrite Hneg.
  rewrite (for_le_window (fb_dims w h) (- r) r (- k) k);
    [ | lia | lia | lia | apply Hmax; lia | apply Hmax; lia
      | intros y a b; apply Hrow | | exact Hd ].
  - apply for_le_ext_inv with (P := fb_dims w h);
      [intros y a b; apply Hrow| |exact Hd].
    intros y fb1 Hd1. fold (inner y).
    apply (for_le_window (fb_dims w h));
      [ lia | lia | lia | apply Hmax; lia | apply Hmax; lia
        | apply Hinner | | exact Hd1 ].
    intros x fb2 Hxr Hd2. unfold inner.
    destruct (covers x y); [|reflexivity].
    rewrite Hadd by lia. f_equal. apply (draw_pixel_outside w h); [exact Hd2|].
    intros [Hin _]. apply Hx in Hin. lia.
  - intros y fb1 Hyr Hd1. fold (inner y).
    unfold for_le. destruct (Z.eqb_spec r Int32.max_signed) as [E|_].
    { exfalso. exact (Hmax r Hr E). }
    apply (iterate_skip_inv (fb_dims w h)); [exact Hd1|].
    intros x fb2 Hxin Hd2. unfold inner.
    destruct (covers x y); [|reflexivity].
    apply list_elem_of_In, elem_of_seqZ in Hxin.
    rewrite !Hadd by lia. f_equal.
    apply (draw_pixel_outside w h); [exact Hd2|].
    intros [_ Hin]. apply Hy in Hin. lia.
Qed.

(** ** Wedge orientation *)

(** The 3x3 neighbourhood of the centre after a wedge from 0 to 90 degrees
    of radius 50: every pixel is blended except the one strictly inside the
    upper-right quadrant. *)
Definition fb3_wedge_0_90 : framebuffer_t :=
  framebuffer_init
    [4294967295; 4294967295; 0;
     4294967295; 4294967295; 4294967295;
     4294967295; 4294967295; 4294967295] 3 3.

(** C2 (the code at a failing input). Centre (1,1) of a cleared 3x3
    framebuffer, radius 50, angles 0 and 90, an opaque colour: the pixel
    (0,2), below and left of the centre, is written, and the pixel (2,0),
    above and to the right, is not. *)
Lemma wedge_0_90_fills_complement :
  draw_wedge_filled (libm := RefLibm.libm) 2 fb3 1 1 (F32.of_Z 50)
    (F32.of_Z 0) (F32.of_Z 90) 4294967295 = Some fb3_wedge_0_90
  /\ fb_get fb3_wedge_0_90 0 2 = Some 4294967295
  /\ fb_get fb3_wedge_0_90 2 0 = Some 0.
Proof.
  split; [|split; vm_compute; reflexivity].
  unfold draw_wedge_filled.
  replace (wedge_angles 2 (F32.of_Z 0) (F32.of_Z 90))
    with (Some (S754_finite false 13176795 (-23), S754_zero false))
    by (vm_compute; reflexivity).
  replace (F32.to_int (F32.of_Z 50)) with (Some 50) by (vm_compute; reflexivity).
  cbn [mbind option_bind].
  rewrite (scan_window 3 3 _ 1 1 50 1 4294967295 fb3); try lia;
    [|split; reflexivity].
  vm_compute. reflexivity.
Qed.
